(** * Warbler (flask-blogly): request handlers of [app.py] over the relational store

    The handlers of [app.py] are embedded as functions on an explicit world
    (database tables, the Flask session dict, the flashed messages).  The
    tables are lists of rows in storage order, the session is a finite map
    from string keys to ids, and an exception raised by a handler is a value. *)

From Stdlib Require Import ZArith Lia.
From stdpp Require Import base decidable option list gmap strings pretty.

Set Default Proof Using "Type".

Local Open Scope Z_scope.
Local Open Scope string_scope.
Local Open Scope list_scope.

(** ** Python values held by ORM attributes *)

#[local] Set Warnings "-register-all".

(** Attributes of a Python object are untyped: [edit_profile] stores tuples in
    attributes that elsewhere hold strings. *)
Inductive PyVal : Type :=
  | PNone
  | PStr (s : string)
  | PTuple (items : list PyVal).

#[global] Instance PyVal_eq_dec : EqDecision PyVal.
Proof.
  refine (fix go (a b : PyVal) {struct a} : Decision (a = b) :=
    match a, b with
    | PNone, PNone => left _
    | PStr s, PStr t => cast_if (decide (s = t))
    | PTuple l, PTuple m => cast_if (@decide (l = m) (@list_eq_dec _ go l m))
    | _, _ => right _
    end); abstract congruence.
Defined.

(** Python truthiness of a string: [s or default]. *)
Definition str_or (s default : string) : string :=
  if bool_decide (s = "") then default else s.

(** ** Data model

    [uid] and [mid] are the [id] columns of [users] and [messages]. *)

Record User : Type := mkUser {
  uid : Z;
  username : PyVal;
  email : PyVal;
  password : string;
  image_url : PyVal;
  header_image_url : PyVal;
  bio : PyVal;
  location : PyVal
}.

Record Message : Type := mkMessage {
  mid : Z;
  text : string;
  created_at : Z;
  user_id : Z
}.

Record Follow : Type := mkFollow {
  user_being_followed_id : Z;
  user_following_id : Z
}.

Record Like : Type := mkLike {
  like_user_id : Z;
  like_message_id : Z
}.

#[global] Instance Follow_eq_dec : EqDecision Follow.
Proof. solve_decision. Defined.

#[global] Instance Like_eq_dec : EqDecision Like.
Proof. solve_decision. Defined.

Record Db : Type := mkDb {
  users : list User;
  messages : list Message;
  follows : list Follow;
  likes : list Like
}.

Definition set_users (d : Db) (us : list User) : Db :=
  mkDb us (messages d) (follows d) (likes d).
Definition set_messages (d : Db) (ms : list Message) : Db :=
  mkDb (users d) ms (follows d) (likes d).
Definition set_follows (d : Db) (fs : list Follow) : Db :=
  mkDb (users d) (messages d) fs (likes d).
Definition set_likes (d : Db) (ls : list Like) : Db :=
  mkDb (users d) (messages d) (follows d) ls.

(** ** The world a request runs in *)

Record World : Type := mkWorld {
  db : Db;
  session : gmap string Z;
  flashes : list (string * string)
}.

Definition CURR_USER_KEY : string := "curr_user".

Inductive Exn : Type :=
  | Unauthorized
  | NotFound
  | ValueError
  | AttributeError
  | IntegrityError.

#[global] Instance Exn_eq_dec : EqDecision Exn.
Proof. solve_decision. Defined.

(** What a handler answers: a rendered template with the messages handed to
    it, or a redirect. *)
Inductive Response : Type :=
  | Render (template : string) (msgs : list Message)
  | Redirect (url : string).

Inductive Outcome (A : Type) : Type :=
  | Returned (a : A)
  | Raised (e : Exn).
Arguments Returned {A} a.
Arguments Raised {A} e.

(** A handler threads the world and may raise; what it changed before the
    raise stays changed. *)
Definition Handler (A : Type) : Type := World → Outcome A * World.

Definition ret {A} (a : A) : Handler A := λ w, (Returned a, w).
Definition raise {A} (e : Exn) : Handler A := λ w, (Raised e, w).
Definition bind {A B} (m : Handler A) (k : A → Handler B) : Handler B :=
  λ w, match m w with
       | (Returned a, w') => k a w'
       | (Raised e, w') => (Raised e, w')
       end.

Notation "x ⇐ m ;; k" := (bind m (λ x, k))
  (at level 100, m at next level, right associativity).
Notation "m ;;; k" := (bind m (λ _, k))
  (at level 100, right associativity).

(** [try: m except e: h] *)
Definition try_except {A} (m : Handler A) (e : Exn) (h : Handler A) : Handler A :=
  λ w, match m w with
       | (Raised e', w') => if bool_decide (e' = e) then h w' else (Raised e', w')
       | r => r
       end.

(** ** Storage queries and collection primitives *)

(** [Model.query.get(id)]: the row with that primary key, or [None]. *)
Definition User_query_get (d : Db) (i : Z) : option User :=
  List.find (λ u, bool_decide (uid u = i)) (users d).

Definition Message_query_get (d : Db) (i : Z) : option Message :=
  List.find (λ m, bool_decide (mid m = i)) (messages d).

(** Python [list.remove(x)] on a list that holds [x]: the first occurrence goes. *)
Fixpoint list_remove_first {A} `{EqDecision A} (x : A) (l : list A) : list A :=
  match l with
  | [] => []
  | y :: l' => if decide (x = y) then l' else y :: list_remove_first x l'
  end.

(** [db.session.delete(obj)]: the row with the object's primary key goes,
    and with a message or a user the association rows of its relationships
    go in the same commit (the Like rows on a message; the Follow rows from
    and to a user and the Like rows a user placed). *)
Definition delete_message (d : Db) (m : Message) : Db :=
  mkDb (users d)
       (filter (λ m', mid m' ≠ mid m) (messages d))
       (follows d)
       (filter (λ l, like_message_id l ≠ mid m) (likes d)).

Definition delete_like (d : Db) (l : Like) : Db :=
  set_likes d (filter (λ l', l' ≠ l) (likes d)).

Definition delete_user_row (d : Db) (u : User) : Db :=
  mkDb (filter (λ u', uid u' ≠ uid u) (users d))
       (messages d)
       (filter (λ f, user_following_id f ≠ uid u ∧ user_being_followed_id f ≠ uid u)
               (follows d))
       (filter (λ l, like_user_id l ≠ uid u) (likes d)).

(** Modelled from the spec: [users.id] is unique and generated (the column
    is declared in [models.py]); a new row gets an id above all stored ones. *)
Definition next_user_id (d : Db) : Z :=
  1 + foldr Z.max 0 (uid <$> users d).

(** ** Handler primitives *)

Definition get_db : Handler Db := λ w, (Returned (db w), w).

Definition flash (message category : string) : Handler unit :=
  λ w, (Returned (), mkWorld (db w) (session w) (flashes w ++ [(message, category)])).

Definition get_or_404 {A} (row : option A) : Handler A :=
  match row with
  | Some a => ret a
  | None => raise NotFound
  end.

(** [add_user_to_g]: [g.user] for this request. *)
Definition add_user_to_g : Handler (option User) :=
  λ w, (Returned (match session w !! CURR_USER_KEY with
                  | Some i => User_query_get (db w) i
                  | None => None
                  end), w).

Definition do_login (user : User) : Handler unit :=
  λ w, (Returned (), mkWorld (db w) (<[CURR_USER_KEY := uid user]> (session w)) (flashes w)).

Definition do_logout : Handler unit :=
  λ w, (Returned (),
        match session w !! CURR_USER_KEY with
        | Some _ => mkWorld (db w) (delete CURR_USER_KEY (session w)) (flashes w)
        | None => w
        end).

(** ** Submitted forms

    [forms.py] is not part of the sources: what [validate_on_submit()]
    answers (request method, CSRF token, field validators) is a field of the
    submitted form. *)

Record UserAddForm : Type := mkUserAddForm {
  add_valid : bool;
  add_username : string;
  add_email : string;
  add_password : string;
  add_image_url : string
}.

Record UserEditForm : Type := mkUserEditForm {
  edit_valid : bool;
  edit_username : string;
  edit_email : string;
  edit_image_url : string;
  edit_header_image_url : string;
  edit_bio : string;
  edit_password : string
}.

Record LoginForm : Type := mkLoginForm {
  login_valid : bool;
  login_username : string;
  login_password : string
}.

Record MessageForm : Type := mkMessageForm {
  message_valid : bool;
  message_text : string
}.

(** ** Concrete stores used to run the handlers *)

Definition toy_hash (pwd : string) : string := "$2b$12$" +:+ pwd.
Definition toy_check (stored pwd : string) : bool := bool_decide (stored = toy_hash pwd).
Definition accept_all : Db → bool := λ _, true.
Definition reject_all : Db → bool := λ _, false.

Definition default_image : string := "/static/images/default-pic.png".
Definition default_header : string := "/static/images/warbler-hero.jpg".

Definition sample_user (i : Z) (name : string) : User :=
  mkUser i (PStr name) (PStr (name +:+ "@email.com")) (toy_hash "password")
         (PStr default_image) (PStr default_header) PNone PNone.

Definition u1 : User := sample_user 1 "u1".
Definition u2 : User := sample_user 2 "u2".

Definition logged_in (i : Z) : gmap string Z := {[ CURR_USER_KEY := i ]}.

(** u1 is logged in, follows nobody and has posted one message. *)
Definition own_message : Message := mkMessage 1 "m1_text" 10 1.
Definition world_own_message : World :=
  mkWorld (mkDb [u1; u2] [own_message] [] []) (logged_in 1) [].

(** u1 follows u2; u2 posted [older_message], then [newer_message]. *)
Definition older_message : Message := mkMessage 1 "first" 10 2.
Definition newer_message : Message := mkMessage 2 "second" 20 2.
Definition world_two_messages : World :=
  mkWorld (mkDb [u1; u2] [older_message; newer_message] [mkFollow 2 1] [])
          (logged_in 1) [].

(** 150 messages of one author, ids and creation times 1..150 in storage order. *)
Definition posts_of (author : Z) : list Message :=
  (λ i, mkMessage i "text" i author) <$> seqZ 1 150.
Definition world_150_own : World :=
  mkWorld (mkDb [u1; u2] (posts_of 1) [] []) (logged_in 1) [].
Definition world_150_followed : World :=
  mkWorld (mkDb [u1; u2] (posts_of 2) [mkFollow 2 1] []) (logged_in 1) [].

(** u1 is logged in; u1's message is liked by u1, u2's message by u1. *)
Definition world_account : World :=
  mkWorld (mkDb [u1; u2]
                [mkMessage 1 "m1_text" 10 1; mkMessage 2 "m2_text" 20 2]
                [mkFollow 2 1]
                [mkLike 1 1; mkLike 1 2])
          (logged_in 1) [].

Definition world_empty : World := mkWorld (mkDb [] [] [] []) ∅ [].

(** [world_empty] after u3 signed up. *)
Definition world_u3 : World := mkWorld (mkDb [sample_user 1 "u3"] [] [] []) ∅ [].

(** [world_two_messages] after u1 stopped following u2. *)
Definition world_unfollowed : World :=
  mkWorld (mkDb [u1; u2] [older_message; newer_message] [] []) (logged_in 1) [].

(** u1 likes both messages of u2; then after one toggle of the like on
    [older_message], and after a second one. *)
Definition world_likes (ls : list Like) : World :=
  mkWorld (mkDb [u1; u2] [older_message; newer_message] [mkFollow 2 1] ls)
          (logged_in 1) [].
Definition world_liked_both : World := world_likes [mkLike 1 1; mkLike 1 2].
Definition world_liked_newer : World := world_likes [mkLike 1 2].
Definition world_liked_again : World := world_likes [mkLike 1 2; mkLike 1 1].

(** u1 and u2 follow each other and like each other's message. *)
Definition world_mutual : World :=
  mkWorld (mkDb [u1; u2]
                [mkMessage 1 "m1_text" 10 1; mkMessage 2 "m2_text" 20 2]
                [mkFollow 2 1; mkFollow 1 2]
                [mkLike 1 2; mkLike 2 1])
          (logged_in 1) [].

(** [world_account] (and [world_mutual]) after u1 has been deleted, and
    [world_account] after a rejected delete. *)
Definition world_account_deleted : World :=
  mkWorld (mkDb [u2] [mkMessage 2 "m2_text" 20 2] [] []) ∅ [].
Definition world_account_logged_out : World :=
  mkWorld (db world_account) ∅ [].



Definition form_duplicate_username : UserAddForm :=
  mkUserAddForm true "u1" "fresh@email.com" "password" "".
Definition form_duplicate_email : UserAddForm :=
  mkUserAddForm true "fresh" "u1@email.com" "password" "".

Definition form_edit_u1 : UserEditForm :=
  mkUserEditForm true "u1_new" "u1_new@email.com" "/new.png" "/hero.png" "bio" "password".

Definition sample_str (v : PyVal) : string :=
  match v with PStr s => s | _ => "" end.

Definition form_login_u2 : LoginForm := mkLoginForm true "u2" "password".
Definition form_signup_u3 : UserAddForm :=
  mkUserAddForm true "u3" "u3@email.com" "password" "".
Definition form_post : MessageForm := mkMessageForm true "hello".

(** u1 follows u2 and itself; then after u1 stopped following u2. *)
Definition world_self_follow : World :=
  mkWorld (mkDb [u1; u2] [own_message; newer_message] [mkFollow 2 1; mkFollow 1 1] [])
          (logged_in 1) [].
Definition world_self_follow_only : World :=
  mkWorld (mkDb [u1; u2] [own_message; newer_message] [mkFollow 1 1] [])
          (logged_in 1) [].

(** [world_account] after u1 posted "hello" at time 30, and after u1
    deleted message 1. *)
Definition world_account_posted : World :=
  mkWorld (set_messages (db world_account)
             (messages (db world_account) ++ [mkMessage 3 "hello" 30 1]))
          (logged_in 1) [].
Definition world_account_first_deleted : World :=
  mkWorld (mkDb [u1; u2] [mkMessage 2 "m2_text" 20 2] [mkFollow 2 1] [mkLike 1 2])
          (logged_in 1) [].

Section Warbler.

(** The password hasher ([bcrypt] in [models.py]) and the column defaults. *)
Variable generate_password_hash : string → string.
Variable check_password_hash : string → string → bool.
Variable DEFAULT_IMAGE_URL : string.
Variable DEFAULT_HEADER_IMAGE_URL : string.

(** What the storage layer enforces at commit besides the two uniqueness
    constraints below (foreign keys, keys of the association tables, the
    availability of the store itself). *)
Variable storage_accepts : Db → bool.

(** Modelled from the spec: the unique constraints of the [users] table
    declared in [models.py] (username unique, email unique). *)
Definition integrity_ok (pending : Db) : bool :=
  bool_decide (NoDup (username <$> users pending))
  && bool_decide (NoDup (email <$> users pending))
  && storage_accepts pending.

(** [db.session.commit()]: the pending unit of work becomes the stored
    state, or the store rejects it as a whole and keeps the old one. *)
Definition db_session_commit (pending : Db) : Handler unit :=
  λ w, if integrity_ok pending
       then (Returned (), mkWorld pending (session w) (flashes w))
       else (Raised IntegrityError, w).

(** Modelled from the spec: [User.signup] of [models.py]: hash the
    password, build the user with the defaults applied, add it to the
    session's unit of work.  An empty password makes the hasher raise
    [ValueError] (test_user_model.py, lines 86-90). *)
Definition User_signup (name mail pwd : string) (img : PyVal) : Handler (User * Db) :=
  λ w,
    if bool_decide (pwd = "") then (Raised ValueError, w)
    else
      let user :=
        mkUser (next_user_id (db w)) (PStr name) (PStr mail)
               (generate_password_hash pwd)
               (match img with PNone => PStr DEFAULT_IMAGE_URL | v => v end)
               (PStr DEFAULT_HEADER_IMAGE_URL) PNone PNone in
      (Returned (user, set_users (db w) (users (db w) ++ [user])), w).

(** Modelled from the spec: [User.authenticate] of [models.py]: the user
    with exactly that username whose stored hash verifies the password;
    [None] stands for the falsy sentinel [False]. *)
Definition User_authenticate (name : PyVal) (pwd : string) : Handler (option User) :=
  λ w, (Returned
          match List.find (λ u, bool_decide (username u = name)) (users (db w)) with
          | Some u => if check_password_hash (password u) pwd then Some u else None
          | None => None
          end, w).

(** Modelled from the spec: the relationship [User.following] of
    [models.py], a view over the Follow edges that leave the user. *)
Definition following (d : Db) (u : User) : list User :=
  omap (λ f, if bool_decide (user_following_id f = uid u)
             then User_query_get d (user_being_followed_id f) else None)
       (follows d).

(** Modelled from the spec: the relationship [User.liked_messages] of
    [models.py], a view over the Like edges of the user. *)
Definition liked_messages (d : Db) (u : User) : list Message :=
  omap (λ l, if bool_decide (like_user_id l = uid u)
             then Message_query_get d (like_message_id l) else None)
       (likes d).

(** [obj in collection]: identity of mapped objects is identity of keys. *)
Definition user_in (v : User) (l : list User) : bool :=
  existsb (λ v', bool_decide (uid v' = uid v)) l.

Definition message_in (m : Message) (l : list Message) : bool :=
  existsb (λ m', bool_decide (mid m' = mid m)) l.

(** [user.following.append(v)] and [user.following.remove(v)]: the edge is
    inserted, resp. the first edge to [v] is deleted; [remove] of an
    absent element raises [ValueError]. *)
Definition following_append (user v : User) : Handler Db :=
  λ w, (Returned (set_follows (db w) (follows (db w) ++ [mkFollow (uid v) (uid user)])), w).

Definition following_remove (user v : User) : Handler Db :=
  λ w, if user_in v (following (db w) user)
       then (Returned (set_follows (db w)
               (list_remove_first (mkFollow (uid v) (uid user)) (follows (db w)))), w)
       else (Raised ValueError, w).

Definition liked_messages_append (user : User) (m : Message) : Handler Db :=
  λ w, (Returned (set_likes (db w) (likes (db w) ++ [mkLike (uid user) (mid m)])), w).

Definition liked_messages_remove (user : User) (m : Message) : Handler Db :=
  λ w, if message_in m (liked_messages (db w) user)
       then (Returned (set_likes (db w)
               (list_remove_first (mkLike (uid user) (mid m)) (likes (db w)))), w)
       else (Raised ValueError, w).

(** [User.signup(...)] followed by [db.session.commit()], as the handler
    and the tests run them. *)
Definition User_signup_commit (name mail pwd : string) (img : PyVal) : Handler User :=
  p ⇐ User_signup name mail pwd img ;;
  db_session_commit p.2 ;;;
  ret p.1.

(** ** The handlers of [app.py] *)

Definition signup (form : UserAddForm) : Handler Response :=
  do_logout ;;;
  if add_valid form then
    r ⇐ try_except
          (user ⇐ User_signup_commit (add_username form) (add_email form)
                    (add_password form)
                    (PStr (str_or (add_image_url form) DEFAULT_IMAGE_URL)) ;;
           ret (inl user))
          IntegrityError
          (flash "Username already taken" "danger" ;;;
           ret (inr (Render "users/signup.html" []))) ;;
    match r with
    | inl user => do_login user ;;; ret (Redirect "/")
    | inr response => ret response
    end
  else ret (Render "users/signup.html" []).

Definition start_following (csrf_ok : bool) (follow_id : Z) : Handler Response :=
  g_user ⇐ add_user_to_g ;;
  match csrf_ok, g_user with
  | true, Some user =>
      d ⇐ get_db ;;
      followed_user ⇐ get_or_404 (User_query_get d follow_id) ;;
      pending ⇐ following_append user followed_user ;;
      db_session_commit pending ;;;
      ret (Redirect ("/users/" +:+ pretty (uid user) +:+ "/following"))
  | _, _ => raise Unauthorized
  end.

Definition stop_following (follow_id : Z) : Handler Response :=
  g_user ⇐ add_user_to_g ;;
  match g_user with
  | None => flash "Access unauthorized." "danger" ;;; ret (Redirect "/")
  | Some user =>
      d ⇐ get_db ;;
      followed_user ⇐ get_or_404 (User_query_get d follow_id) ;;
      pending ⇐ following_remove user followed_user ;;
      db_session_commit pending ;;;
      ret (Redirect ("/users/" +:+ pretty (uid user) +:+ "/following"))
  end.

(** The object after the five assignments of [edit_profile]; the first
    three right-hand sides end in a comma. *)
Definition edit_profile_assign (user : User) (form : UserEditForm) : User :=
  mkUser (uid user)
         (PTuple [PStr (edit_username form)])
         (PTuple [PStr (edit_email form)])
         (password user)
         (PTuple [PStr (edit_image_url form)])
         (PStr (edit_header_image_url form))
         (PStr (edit_bio form))
         (location user).

(** What a text column stores for an attribute value: the driver adapts a
    one-element tuple to its element, so the row holds the plain string. *)
Definition column_value (v : PyVal) : PyVal :=
  match v with
  | PTuple [x] => x
  | _ => v
  end.

(** The row the flush writes for the mutated object: the five assigned
    attributes as the columns store them; id, password and location are not
    written. *)
Definition stored_user (user : User) : User :=
  mkUser (uid user)
         (column_value (username user))
         (column_value (email user))
         (password user)
         (column_value (image_url user))
         (column_value (header_image_url user))
         (column_value (bio user))
         (location user).

(** The mutated object replaces its row when the session is flushed. *)
Definition flush_user (d : Db) (user : User) : Db :=
  set_users d
    ((λ u, if bool_decide (uid u = uid user) then stored_user user else u) <$> users d).

Definition edit_profile (form : UserEditForm) : Handler Response :=
  g_user ⇐ add_user_to_g ;;
  if edit_valid form then
    match g_user with
    | None => raise AttributeError
    | Some user =>
        auth ⇐ User_authenticate (username user) (edit_password form) ;;
        match auth with
        | None =>
            flash "Incorrect username/password combination entered" "error" ;;;
            ret (Redirect "/users/profile")
        | Some _ =>
            d ⇐ get_db ;;
            db_session_commit (flush_user d (edit_profile_assign user form)) ;;;
            ret (Redirect ("/users/" +:+ pretty (uid user)))
        end
    end
  else ret (Render "/users/edit.html" []).

Definition delete_user (csrf_ok : bool) : Handler Response :=
  g_user ⇐ add_user_to_g ;;
  match g_user, csrf_ok with
  | Some user, true =>
      do_logout ;;;
      d ⇐ get_db ;;
      let pending_messages :=
        foldl delete_message d (filter (λ m, user_id m = uid user) (messages d)) in
      let pending_likes :=
        foldl delete_like pending_messages
              (filter (λ l, like_user_id l = uid user) (likes d)) in
      db_session_commit (delete_user_row pending_likes user) ;;;
      ret (Redirect "/signup")
  | _, _ => flash "Access unauthorized." "danger" ;;; ret (Redirect "/")
  end.

Definition toggle_like (csrf_ok : bool) (referrer : string) (message_id : Z)
  : Handler Response :=
  g_user ⇐ add_user_to_g ;;
  match csrf_ok, g_user with
  | true, Some user =>
      d ⇐ get_db ;;
      message ⇐ get_or_404 (Message_query_get d message_id) ;;
      if bool_decide (user_id message = uid user) then raise Unauthorized
      else
        pending ⇐ (if message_in message (liked_messages d user)
                   then liked_messages_remove user message
                   else liked_messages_append user message) ;;
        db_session_commit pending ;;;
        ret (Redirect referrer)
  | _, _ => raise Unauthorized
  end.

(** [Message.query.all()] has no [order_by]: the rows come in storage order. *)
Definition homepage : Handler Response :=
  g_user ⇐ add_user_to_g ;;
  match g_user with
  | Some user =>
      d ⇐ get_db ;;
      let user_ids_cur_user_is_following : gset Z :=
        list_to_set (uid <$> following d user) in
      let followed_messages :=
        filter (λ message, user_id message ∈ user_ids_cur_user_is_following)
               (messages d) in
      ret (Render "home.html" (take 100 followed_messages))
  | None => ret (Render "home-anon.html" [])
  end.

(** *** The remaining session and message handlers *)

(** Python's [str()] of an attribute value, as an f-string shows it. *)
Variable python_str : PyVal → string.

Definition login (form : LoginForm) : Handler Response :=
  if login_valid form then
    auth ⇐ User_authenticate (PStr (login_username form)) (login_password form) ;;
    match auth with
    | Some user =>
        do_login user ;;;
        flash ("Hello, " +:+ python_str (username user) +:+ "!") "success" ;;;
        ret (Redirect "/")
    | None =>
        flash "Invalid credentials." "danger" ;;;
        ret (Render "users/login.html" [])
    end
  else ret (Render "users/login.html" []).

(** [flash(message)] without a category uses the category "message". *)
Definition logout (csrf_ok : bool) : Handler Response :=
  g_user ⇐ add_user_to_g ;;
  match csrf_ok, g_user with
  | true, Some _ =>
      do_logout ;;;
      flash "Successful Logout" "success" ;;;
      ret (Redirect "/")
  | _, _ =>
      flash "Unauthorized Logout Attempted" "message" ;;;
      ret (Redirect "/login")
  end.

(** Modelled from the spec: [messages.id] is generated and [created_at] is
    assigned by the server (both column defaults are in [models.py]); [now]
    is the server clock at the request. *)
Definition next_message_id (d : Db) : Z :=
  1 + foldr Z.max 0 (mid <$> messages d).

(** Modelled from the spec: the relationship [User.messages] of [models.py];
    [user.messages.append(msg)] makes the user the owner of the message. *)
Definition messages_append (user : User) (body : string) (now : Z) : Handler Db :=
  λ w, (Returned (set_messages (db w)
          (messages (db w) ++ [mkMessage (next_message_id (db w)) body now (uid user)])), w).

Definition add_message (now : Z) (form : MessageForm) : Handler Response :=
  g_user ⇐ add_user_to_g ;;
  match g_user with
  | None => flash "Access unauthorized." "danger" ;;; ret (Redirect "/")
  | Some user =>
      if message_valid form then
        pending ⇐ messages_append user (message_text form) now ;;
        db_session_commit pending ;;;
        ret (Redirect ("/users/" +:+ pretty (uid user)))
      else ret (Render "messages/create.html" [])
  end.

Definition show_message (message_id : Z) : Handler Response :=
  g_user ⇐ add_user_to_g ;;
  match g_user with
  | None => flash "Access unauthorized." "danger" ;;; ret (Redirect "/")
  | Some _ =>
      d ⇐ get_db ;;
      msg ⇐ get_or_404 (Message_query_get d message_id) ;;
      ret (Render "messages/show.html" [msg])
  end.

(** The handler [delete_message] of [app.py] (the name is taken by the row
    deletion above): the message is looked up before the request is checked. *)
Definition delete_message_view (csrf_ok : bool) (message_id : Z) : Handler Response :=
  d ⇐ get_db ;;
  message ⇐ get_or_404 (Message_query_get d message_id) ;;
  g_user ⇐ add_user_to_g ;;
  match g_user with
  | Some user =>
      if bool_decide (user_id message = uid user) && csrf_ok then
        msg ⇐ get_or_404 (Message_query_get d message_id) ;;
        db_session_commit (delete_message d msg) ;;;
        ret (Redirect ("/users/" +:+ pretty (uid user)))
      else flash "Access unauthorized." "danger" ;;; ret (Redirect "/")
  | None => flash "Access unauthorized." "danger" ;;; ret (Redirect "/")
  end.


(** A handler that changes neither the tables nor the session of a request
    without a logged-in user. *)
Definition inert_when_anonymous (h : Handler Response) : Prop :=
  ∀ w, add_user_to_g w = (Returned None, w) →
       db (h w).2 = db w ∧ session (h w).2 = session w.

(** A handler that changes neither the tables nor the session. *)
Definition changes_nothing (h : Handler Response) : Prop :=
  ∀ w, db (h w).2 = db w ∧ session (h w).2 = session w.

(** ** Properties of the handlers *)

(** *** Helper lemmas *)

Lemma do_logout_spec (w : World) :
  do_logout w
  = (Returned (), mkWorld (db w) (delete CURR_USER_KEY (session w)) (flashes w)).
Proof.
  unfold do_logout. destruct (session w !! CURR_USER_KEY) eqn:E; [reflexivity | ].
  rewrite delete_id by exact E. by destruct w.
Qed.

Lemma find_snoc {A} (f : A → bool) (l : list A) (x : A) :
  List.find f (l ++ [x])
  = match List.find f l with
    | Some y => Some y
    | None => if f x then Some x else None
    end.
Proof.
  induction l as [ | y l IH]; simpl; [reflexivity | ].
  destruct (f y); [reflexivity | exact IH].
Qed.

Lemma find_none_iff {A} (f : A → bool) (l : list A) :
  (∀ x, x ∈ l → f x = false) → List.find f l = None.
Proof.
  induction l as [ | y l IH]; intros H; simpl; [reflexivity | ].
  rewrite (H y) by left. apply IH. intros x Hx. apply H. by right.
Qed.

Lemma filter_all {A} (P : A → Prop) `{∀ x, Decision (P x)} (l : list A) :
  (∀ x, x ∈ l → P x) → filter P l = l.
Proof.
  induction l as [ | y l IH]; intros Hl; [reflexivity | ].
  rewrite filter_cons, decide_True by (apply Hl; left).
  f_equal. apply IH. intros x Hx. apply Hl. by right.
Qed.

Lemma filter_none {A} (P : A → Prop) `{∀ x, Decision (P x)} (l : list A) :
  (∀ x, x ∈ l → ¬ P x) → filter P l = [].
Proof.
  induction l as [ | y l IH]; intros Hl; [reflexivity | ].
  rewrite filter_cons, decide_False by (apply Hl; left).
  apply IH. intros x Hx. apply Hl. by right.
Qed.

Lemma filter_key_unique {A B} `{EqDecision B} (f : A → B) (l : list A) (x : A) :
  NoDup (f <$> l) → x ∈ l → length (filter (λ y, f y = f x) l) = 1%nat.
Proof.
  induction l as [ | y l IH]; intros Hnd Hx; [by apply elem_of_nil in Hx | ].
  rewrite fmap_cons in Hnd. apply NoDup_cons in Hnd as [Hy Hnd].
  rewrite filter_cons. apply elem_of_cons in Hx as [-> | Hx].
  - rewrite decide_True by reflexivity. simpl. f_equal.
    rewrite filter_none; [reflexivity | ].
    intros z Hz Hfz. apply Hy. rewrite <- Hfz. apply list_elem_of_fmap. eauto.
  - rewrite decide_False; [by apply IH | ].
    intros Hfy. apply Hy. rewrite Hfy. apply list_elem_of_fmap. eauto.
Qed.

Lemma add_user_to_g_result (w : World) :
  ∃ g_user, add_user_to_g w = (Returned g_user, w).
Proof. eexists. reflexivity. Qed.

Lemma add_user_to_g_frame (w w1 : World) (g_user : option User) :
  session w1 = session w →
  users (db w1) = users (db w) →
  add_user_to_g w = (Returned g_user, w) →
  add_user_to_g w1 = (Returned g_user, w1).
Proof.
  unfold add_user_to_g, User_query_get. intros -> -> [= <-]. reflexivity.
Qed.

Lemma list_remove_first_absent {A} `{EqDecision A} (x : A) (l : list A) :
  x ∉ l → list_remove_first x l = l.
Proof.
  induction l as [ | y l IH]; intros Hx; simpl; [reflexivity | ].
  apply not_elem_of_cons in Hx as [Hxy Hx].
  rewrite decide_False by exact Hxy. f_equal. by apply IH.
Qed.

Lemma list_remove_first_perm {A} `{EqDecision A} (x : A) (l : list A) :
  x ∈ l → x :: list_remove_first x l ≡ₚ l.
Proof.
  induction l as [ | y l IH]; intros Hx; [by apply elem_of_nil in Hx | ].
  simpl. destruct (decide (x = y)) as [-> | Hxy]; [reflexivity | ].
  apply elem_of_cons in Hx as [Hx | Hx]; [done | ].
  rewrite Permutation_swap. f_equiv. by apply IH.
Qed.

Lemma list_remove_first_gone {A} `{EqDecision A} (x : A) (l : list A) :
  NoDup l → x ∉ list_remove_first x l.
Proof.
  induction l as [ | y l IH]; intros Hnd; simpl; [apply not_elem_of_nil | ].
  apply NoDup_cons in Hnd as [Hy Hnd].
  destruct (decide (x = y)) as [-> | Hxy]; [exact Hy | ].
  apply not_elem_of_cons. split; [exact Hxy | by apply IH].
Qed.

Lemma list_remove_first_snoc {A} `{EqDecision A} (x : A) (l : list A) :
  x ∉ l → list_remove_first x (l ++ [x]) = l.
Proof.
  induction l as [ | y l IH]; intros Hx; simpl.
  - by rewrite decide_True.
  - apply not_elem_of_cons in Hx as [Hxy Hx].
    rewrite decide_False by exact Hxy. f_equal. by apply IH.
Qed.

(** Membership in the two relationship views is presence of the edge. *)
Lemma user_in_following (d : Db) (user target : User) :
  User_query_get d (uid target) = Some target →
  user_in target (following d user) = true
  ↔ mkFollow (uid target) (uid user) ∈ follows d.
Proof.
  intros Hget. unfold user_in, following. rewrite existsb_exists. split.
  - intros (v & Hv & Hid). apply bool_decide_eq_true in Hid.
    apply list_elem_of_In, list_elem_of_omap in Hv as (f & Hf & Hv).
    case_bool_decide as Hfrom; [ | discriminate].
    apply find_some in Hv as [_ Hto]. apply bool_decide_eq_true in Hto.
    destruct f as [to from]. simpl in *. congruence.
  - intros Hf. exists target. split; [ | by apply bool_decide_eq_true].
    apply list_elem_of_In, list_elem_of_omap. eexists. split; [exact Hf | ].
    simpl. by rewrite bool_decide_eq_true_2.
Qed.

Lemma message_in_liked_messages (d : Db) (user : User) (m : Message) :
  Message_query_get d (mid m) = Some m →
  message_in m (liked_messages d user) = true
  ↔ mkLike (uid user) (mid m) ∈ likes d.
Proof.
  intros Hget. unfold message_in, liked_messages. rewrite existsb_exists. split.
  - intros (m' & Hm' & Hid). apply bool_decide_eq_true in Hid.
    apply list_elem_of_In, list_elem_of_omap in Hm' as (l & Hl & Hm').
    case_bool_decide as Hby; [ | discriminate].
    apply find_some in Hm' as [_ Hon]. apply bool_decide_eq_true in Hon.
    destruct l as [by_ on]. simpl in *. congruence.
  - intros Hl. exists m. split; [ | by apply bool_decide_eq_true].
    apply list_elem_of_In, list_elem_of_omap. eexists. split; [exact Hl | ].
    simpl. by rewrite bool_decide_eq_true_2.
Qed.

(** What the loops of [delete_user] leave in the pending state. *)
Lemma foldl_delete_message_tables (l : list Message) (d : Db) :
  foldl delete_message d l
  = mkDb (users d)
         (filter (λ m, Forall (λ x, mid m ≠ mid x) l) (messages d))
         (follows d)
         (filter (λ k, Forall (λ x, like_message_id k ≠ mid x) l) (likes d)).
Proof.
  revert d. induction l as [ | y l IH]; intros d; simpl.
  - rewrite !filter_all; [by destruct d | intros; constructor | intros; constructor].
  - rewrite IH. unfold delete_message. cbn [users messages follows likes].
    rewrite !list_filter_filter. f_equal.
    + apply list_filter_iff. intros m. rewrite Forall_cons. split; intros [? ?]; done.
    + apply list_filter_iff. intros k. rewrite Forall_cons. split; intros [? ?]; done.
Qed.

Lemma foldl_delete_like_tables (l : list Like) (d : Db) :
  foldl delete_like d l
  = mkDb (users d) (messages d) (follows d) (filter (λ k, k ∉ l) (likes d)).
Proof.
  revert d. induction l as [ | y l IH]; intros d; simpl.
  - rewrite filter_all; [by destruct d | intros; apply not_elem_of_nil].
  - rewrite IH. unfold delete_like, set_likes. cbn [users messages follows likes].
    rewrite list_filter_filter. f_equal.
    apply list_filter_iff. intros k. rewrite not_elem_of_cons.
    split; intros [? ?]; done.
Qed.

Lemma foldl_delete_message (l : list Message) (d : Db) :
  let d' := foldl delete_message d l in
  users d' = users d ∧ follows d' = follows d
  ∧ (∀ k, k ∈ likes d' ↔ k ∈ likes d ∧ ∀ x, x ∈ l → like_message_id k ≠ mid x)
  ∧ ∀ m, m ∈ messages d' ↔ m ∈ messages d ∧ ∀ x, x ∈ l → mid m ≠ mid x.
Proof.
  cbv zeta. rewrite foldl_delete_message_tables. cbn [users messages follows likes].
  split; [reflexivity | ]. split; [reflexivity | ]. split.
  - intros k. rewrite list_elem_of_filter, Forall_forall. split; intros [? ?]; done.
  - intros m. rewrite list_elem_of_filter, Forall_forall. split; intros [? ?]; done.
Qed.

Lemma foldl_delete_like (l : list Like) (d : Db) :
  let d' := foldl delete_like d l in
  users d' = users d ∧ follows d' = follows d ∧ messages d' = messages d
  ∧ ∀ k, k ∈ likes d' ↔ k ∈ likes d ∧ k ∉ l.
Proof.
  cbv zeta. rewrite foldl_delete_like_tables. cbn [users messages follows likes].
  split; [reflexivity | ]. split; [reflexivity | ]. split; [reflexivity | ].
  intros k. rewrite list_elem_of_filter. split; intros [? ?]; done.
Qed.

(** What a successful [User.signup] + commit did. *)
Lemma User_signup_commit_returned
    (w w' : World) (name mail pwd : string) (img : PyVal) (u : User) :
  User_signup_commit name mail pwd img w = (Returned u, w') →
  pwd ≠ ""
  ∧ u = mkUser (next_user_id (db w)) (PStr name) (PStr mail)
               (generate_password_hash pwd)
               (match img with PNone => PStr DEFAULT_IMAGE_URL | v => v end)
               (PStr DEFAULT_HEADER_IMAGE_URL) PNone PNone
  ∧ w' = mkWorld (set_users (db w) (users (db w) ++ [u])) (session w) (flashes w)
  ∧ NoDup (username <$> (users (db w) ++ [u]))
  ∧ NoDup (email <$> (users (db w) ++ [u])).
Proof.
  unfold User_signup_commit, bind, User_signup, db_session_commit, ret.
  case_bool_decide as Hpwd; [discriminate | ]. simpl.
  set (pending := set_users _ _).
  destruct (integrity_ok pending) eqn:Hok; [ | discriminate].
  intros [= <- <-]. unfold integrity_ok in Hok.
  apply andb_true_iff in Hok as [Hok _]. apply andb_true_iff in Hok as [Hn Hm].
  apply bool_decide_eq_true in Hn, Hm. simpl in Hn, Hm. done.
Qed.

(** A signup with a password, a fresh username and a fresh email is
    committed when the store accepts the new table. *)
Lemma User_signup_commit_fresh
    (w : World) (name mail pwd : string) (img : PyVal) :
  pwd ≠ "" →
  NoDup (username <$> users (db w)) →
  NoDup (email <$> users (db w)) →
  PStr name ∉ username <$> users (db w) →
  PStr mail ∉ email <$> users (db w) →
  (∀ u, storage_accepts (set_users (db w) (users (db w) ++ [u])) = true) →
  ∃ u w', User_signup_commit name mail pwd img w = (Returned u, w').
Proof.
  intros Hpwd Hnames Hmails Hname Hmail Hacc.
  unfold User_signup_commit, bind, User_signup, db_session_commit, ret.
  rewrite bool_decide_eq_false_2 by exact Hpwd. simpl.
  set (u := mkUser _ _ _ _ _ _ _ _).
  assert (integrity_ok (set_users (db w) (users (db w) ++ [u])) = true) as ->;
    [ | eauto].
  unfold integrity_ok. rewrite Hacc, andb_true_r. simpl. rewrite !fmap_app. simpl.
  apply andb_true_iff. split; apply bool_decide_eq_true, NoDup_app.
  - split; [exact Hnames | ]. split; [ | apply NoDup_singleton].
    intros x Hx Hx'. apply list_elem_of_singleton in Hx'. by subst x.
  - split; [exact Hmails | ]. split; [ | apply NoDup_singleton].
    intros x Hx Hx'. apply list_elem_of_singleton in Hx'. by subst x.
Qed.

(** A pending insert that repeats a username or an email is rejected. *)
Lemma User_signup_commit_duplicate
    (w : World) (name mail pwd : string) (img : PyVal) :
  pwd ≠ "" →
  PStr name ∈ username <$> users (db w) ∨ PStr mail ∈ email <$> users (db w) →
  User_signup_commit name mail pwd img w = (Raised IntegrityError, w).
Proof.
  intros Hpwd Hdup.
  unfold User_signup_commit, bind, User_signup, db_session_commit, ret.
  rewrite bool_decide_eq_false_2 by exact Hpwd. simpl.
  set (u := mkUser _ _ _ _ _ _ _ _).
  assert (integrity_ok (set_users (db w) (users (db w) ++ [u])) = false) as ->;
    [ | reflexivity].
  unfold integrity_ok. simpl. rewrite !fmap_app. simpl.
  destruct Hdup as [Hdup | Hdup].
  - rewrite (bool_decide_eq_false_2 (NoDup (_ ++ [PStr name]))); [reflexivity | ].
    intros Hnd. apply NoDup_app in Hnd as (_ & Hnd & _).
    apply (Hnd _ Hdup). by left.
  - rewrite (bool_decide_eq_false_2 (NoDup (_ ++ [PStr mail]))), andb_false_r;
      [reflexivity | ].
    intros Hnd. apply NoDup_app in Hnd as (_ & Hnd & _).
    apply (Hnd _ Hdup). by left.
Qed.

(** C6: a logged-in user who toggles a like on a message of their own gets
    [Unauthorized], whatever the Like table holds and whatever the form
    check answers, and the world (Like table included) is left as it was. *)
Theorem toggle_like_own_message_unauthorized
    (w : World) (csrf_ok : bool) (referrer : string) (A : User) (m : Message) :
  add_user_to_g w = (Returned (Some A), w) →
  Message_query_get (db w) (mid m) = Some m →
  user_id m = uid A →
  toggle_like csrf_ok referrer (mid m) w = (Raised Unauthorized, w).
Proof.
  intros Hg Hm Hown. unfold toggle_like, bind. rewrite Hg.
  destruct csrf_ok; [ | reflexivity].
  unfold get_db, get_or_404. rewrite Hm. unfold ret.
  rewrite bool_decide_eq_true_2 by exact Hown. reflexivity.
Qed.


Lemma signed_up_user_found
    (w w' : World) (name mail pwd : string) (img : PyVal) (u : User) :
  User_signup_commit name mail pwd img w = (Returned u, w') →
  username u = PStr name
  ∧ password u = generate_password_hash pwd
  ∧ List.find (λ v, bool_decide (username v = PStr name)) (users (db w')) = Some u.
Proof.
  intros Hs. apply User_signup_commit_returned in Hs as (_ & Hu & -> & Hnd & _).
  assert (username u = PStr name) as Hname by (by rewrite Hu).
  split; [exact Hname | ]. split; [by rewrite Hu | ]. simpl.
  rewrite find_snoc, find_none_iff.
  - by rewrite bool_decide_eq_true_2.
  - intros v Hv. apply bool_decide_eq_false_2. intros Hvn.
    rewrite fmap_app in Hnd. apply NoDup_app in Hnd as (_ & Hnd & _).
    apply (Hnd (username v)); [apply list_elem_of_fmap; eauto | ].
    rewrite Hvn, <- Hname. by left.
Qed.

(** C8: after a successful signup, [authenticate] with the same username
    and password returns that user, whose username is the one signed up;
    with a password the stored hash does not verify it returns the falsy
    sentinel; and in any world, a username that no user has or a password
    that does not verify makes it return the sentinel: it returns in every
    case and leaves the world as it was. *)
Theorem signup_then_authenticate
    (w w' : World) (name mail pwd : string) (img : PyVal) (u : User) :
  check_password_hash (generate_password_hash pwd) pwd = true →
  User_signup_commit name mail pwd img w = (Returned u, w') →
  username u = PStr name
  ∧ User_authenticate (PStr name) pwd w' = (Returned (Some u), w')
  ∧ (∀ wrong, check_password_hash (generate_password_hash pwd) wrong = false →
       User_authenticate (PStr name) wrong w' = (Returned None, w'))
  ∧ (∀ (w0 : World) (name0 : PyVal) (pwd0 : string),
       (∀ v, v ∈ users (db w0) → username v = name0 →
             check_password_hash (password v) pwd0 = false) →
       User_authenticate name0 pwd0 w0 = (Returned None, w0)).
Proof.
  intros Hcheck Hs. apply signed_up_user_found in Hs as (Hname & Hpw & Hfind).
  split; [exact Hname | ]. unfold User_authenticate. repeat split.
  - by rewrite Hfind, Hpw, Hcheck.
  - intros wrong Hwrong. by rewrite Hfind, Hpw, Hwrong.
  - intros w0 name0 pwd0 Hfail.
    destruct (List.find _ (users (db w0))) as [v | ] eqn:Hv; [ | reflexivity].
    apply find_some in Hv as [Hin Hv]. apply bool_decide_eq_true in Hv.
    rewrite (Hfail v); [reflexivity | by apply list_elem_of_In | exact Hv].
Qed.

(** C9: once a signup with a username has been committed, a second signup
    with the same username raises [IntegrityError] at commit and stores
    nothing, so exactly one user with that username exists afterwards. *)
Theorem second_signup_same_username_fails
    (w w1 : World) (name mail1 pwd1 mail2 pwd2 : string) (img1 img2 : PyVal)
    (first : User) :
  pwd2 ≠ "" →
  User_signup_commit name mail1 pwd1 img1 w = (Returned first, w1) →
  User_signup_commit name mail2 pwd2 img2 w1 = (Raised IntegrityError, w1)
  ∧ length (filter (λ u, username u = PStr name) (users (db w1))) = 1%nat.
Proof.
  intros Hpwd Hs.
  apply User_signup_commit_returned in Hs as (_ & Hu & -> & Hnd & _).
  assert (username first = PStr name) as Hname by (by rewrite Hu).
  assert (first ∈ users (db w) ++ [first]) as Hin
    by (apply elem_of_app; right; by left).
  split.
  - apply User_signup_commit_duplicate; [exact Hpwd | ]. left. simpl.
    rewrite <- Hname. apply list_elem_of_fmap. eauto.
  - simpl. rewrite <- Hname. by apply filter_key_unique.
Qed.

(** C5 (as the code has it): when the submitted username or the submitted
    email is already taken, the handler answers with one and the same
    outcome: the signup form is rendered again, "Username already taken" is
    flashed, no user is stored and nobody is logged in. *)
Theorem signup_duplicate_generic_failure (w : World) (form : UserAddForm) :
  add_valid form = true →
  add_password form ≠ "" →
  PStr (add_username form) ∈ username <$> users (db w)
  ∨ PStr (add_email form) ∈ email <$> users (db w) →
  signup form w
  = (Returned (Render "users/signup.html" []),
     mkWorld (db w) (delete CURR_USER_KEY (session w))
             (flashes w ++ [("Username already taken", "danger")])).
Proof.
  intros Hvalid Hpwd Hdup. unfold signup, bind at 1. rewrite do_logout_spec, Hvalid.
  unfold bind at 1, try_except, bind at 1.
  rewrite User_signup_commit_duplicate by done.
  reflexivity.
Qed.

(** C3 (as the code has it): for a logged-in user with a valid form,
    [delete_user] first logs the user out and then commits the deletions as
    one unit.  The commit is asked for tables without the user's row, without
    the messages of the user, without the likes the user placed or that were
    placed on those messages, and without the Follow edges from and to the
    user; no message of the user is among the messages asked for.  When the
    store accepts them they become the tables; when it rejects them the
    tables are as before.  In both cases the session has already lost its
    user: the logout is not undone. *)
Theorem delete_user_logs_out_then_commits (w : World) (user : User) :
  add_user_to_g w = (Returned (Some user), w) →
  let own := filter (λ m, user_id m = uid user) (messages (db w)) in
  let pending :=
    mkDb (filter (λ u, uid u ≠ uid user) (users (db w)))
         (filter (λ m, Forall (λ x, mid m ≠ mid x) own) (messages (db w)))
         (filter (λ f, user_following_id f ≠ uid user ∧ user_being_followed_id f ≠ uid user)
                 (follows (db w)))
         (filter (λ l, like_user_id l ≠ uid user
                       ∧ Forall (λ x, like_message_id l ≠ mid x) own)
                 (likes (db w))) in
  (∀ m, m ∈ messages pending → user_id m ≠ uid user)
  ∧ delete_user true w
    = if integrity_ok pending
      then (Returned (Redirect "/signup"),
            mkWorld pending (delete CURR_USER_KEY (session w)) (flashes w))
      else (Raised IntegrityError,
            mkWorld (db w) (delete CURR_USER_KEY (session w)) (flashes w)).
Proof.
  intros Hg own pending. split.
  - intros m Hm Hown. cbn [pending messages] in Hm.
    apply list_elem_of_filter in Hm as [Hdistinct Hm].
    rewrite Forall_forall in Hdistinct. apply (Hdistinct m); [ | reflexivity].
    apply list_elem_of_filter. done.
  - unfold delete_user, bind. rewrite Hg, do_logout_spec.
    unfold get_db, db_session_commit, ret. cbn [db session flashes].
    fold own. rewrite foldl_delete_message_tables, foldl_delete_like_tables.
    unfold delete_user_row. cbn [users messages follows likes].
    assert (filter (λ l, like_user_id l ≠ uid user)
              (filter (λ k, k ∉ filter (λ l, like_user_id l = uid user) (likes (db w)))
                 (filter (λ k, Forall (λ x, like_message_id k ≠ mid x) own) (likes (db w))))
            = likes pending) as ->.
    { cbn [pending likes]. rewrite !list_filter_filter. apply list_filter_iff.
      intros l. split.
      - intros [[Hby _] Hon]. done.
      - intros [Hby Hon]. split; [ | exact Hon]. split; [exact Hby | ].
        intros Hin. by apply list_elem_of_filter in Hin as [Hown _]. }
    change (mkDb _ _ _ (likes pending)) with pending.
    by destruct (integrity_ok pending).
Qed.

(** C4 (as the code has it): for a logged-in user A and an existing user
    B, [stop_following] raises [ValueError] and leaves the world as it was
    when there is no Follow edge from A to B; so, the edges being pairwise
    distinct, after an unfollow that removed the edge the repeated unfollow
    raises [ValueError]. *)
Theorem stop_following_absent_edge_raises (w : World) (user target : User) :
  add_user_to_g w = (Returned (Some user), w) →
  User_query_get (db w) (uid target) = Some target →
  (mkFollow (uid target) (uid user) ∉ follows (db w) →
   stop_following (uid target) w = (Raised ValueError, w))
  ∧ (NoDup (follows (db w)) →
     ∀ r w1, stop_following (uid target) w = (Returned r, w1) →
       (mkFollow (uid target) (uid user) ∉ follows (db w1))
       ∧ stop_following (uid target) w1 = (Raised ValueError, w1)).
Proof.
  intros Hg Hget.
  assert (∀ w0, add_user_to_g w0 = (Returned (Some user), w0) →
                User_query_get (db w0) (uid target) = Some target →
                mkFollow (uid target) (uid user) ∉ follows (db w0) →
                stop_following (uid target) w0 = (Raised ValueError, w0)) as Habsent.
  { intros w0 Hg0 Hget0 Hno. unfold stop_following, bind. rewrite Hg0.
    unfold get_db, get_or_404. rewrite Hget0. unfold ret, following_remove.
    destruct (user_in target (following (db w0) user)) eqn:Hin; [ | reflexivity].
    apply user_in_following in Hin; done. }
  split; [by apply Habsent | ].
  intros Hnd r w1. unfold stop_following, bind. rewrite Hg.
  unfold get_db, get_or_404. rewrite Hget. unfold ret, following_remove.
  destruct (user_in target (following (db w) user)); [ | discriminate].
  unfold db_session_commit. destruct (integrity_ok _); [ | discriminate].
  intros [= _ <-]. cbn [db follows set_follows].
  split; [by apply list_remove_first_gone | ].
  apply Habsent.
  - by apply (add_user_to_g_frame w).
  - exact Hget.
  - by apply list_remove_first_gone.
Qed.

(** What a toggle that returned has done. *)
Lemma toggle_like_returned
    (w w1 : World) (csrf_ok : bool) (referrer : string) (message_id : Z) (r : Response) :
  toggle_like csrf_ok referrer message_id w = (Returned r, w1) →
  ∃ user m,
    add_user_to_g w = (Returned (Some user), w)
    ∧ Message_query_get (db w) message_id = Some m
    ∧ user_id m ≠ uid user
    ∧ w1 = mkWorld
             (set_likes (db w)
                (if decide (mkLike (uid user) message_id ∈ likes (db w))
                 then list_remove_first (mkLike (uid user) message_id) (likes (db w))
                 else likes (db w) ++ [mkLike (uid user) message_id]))
             (session w) (flashes w).
Proof.
  unfold toggle_like, bind.
  destruct (add_user_to_g_result w) as [g_user Hg]. rewrite Hg.
  destruct csrf_ok; [ | discriminate]. destruct g_user as [user | ]; [ | discriminate].
  unfold get_db, get_or_404.
  destruct (Message_query_get (db w) message_id) as [m | ] eqn:Hget; [ | discriminate].
  unfold ret. case_bool_decide as Hown; [discriminate | ].
  assert (mid m = message_id) as Hmid.
  { apply find_some in Hget as [_ Hmid]. by apply bool_decide_eq_true in Hmid. }
  pose proof (message_in_liked_messages (db w) user m) as Hiff.
  rewrite Hmid in Hiff. specialize (Hiff Hget).
  unfold liked_messages_remove, liked_messages_append, db_session_commit.
  destruct (message_in m (liked_messages (db w) user)) eqn:Hin.
  - rewrite Hin, Hmid. destruct (integrity_ok _); [ | discriminate].
    intros [= _ <-]. exists user, m.
    rewrite decide_True by (by apply Hiff). done.
  - rewrite Hmid. destruct (integrity_ok _); [ | discriminate].
    intros [= _ <-]. exists user, m.
    rewrite decide_False by (rewrite <- Hiff; congruence). done.
Qed.

(** A toggle returns for a logged-in user with a valid form and a stored
    message of another author, when the store accepts the new Like table. *)
Lemma toggle_like_returns
    (w : World) (referrer : string) (user : User) (m : Message) :
  add_user_to_g w = (Returned (Some user), w) →
  Message_query_get (db w) (mid m) = Some m →
  user_id m ≠ uid user →
  (∀ ls, integrity_ok (set_likes (db w) ls) = true) →
  ∃ w1, toggle_like true referrer (mid m) w = (Returned (Redirect referrer), w1).
Proof.
  intros Hg Hget Hown Hacc. unfold toggle_like, bind. rewrite Hg.
  unfold get_db, get_or_404. rewrite Hget. unfold ret.
  rewrite bool_decide_eq_false_2 by exact Hown.
  unfold liked_messages_remove, liked_messages_append, db_session_commit.
  destruct (message_in m (liked_messages (db w) user)) eqn:Hin.
  - rewrite Hin, Hacc. eauto.
  - rewrite Hacc. eauto.
Qed.

(** C7: when the Like rows are pairwise distinct and two toggles of the
    same message in succession both return (the user is logged in with a
    valid form, the message exists and is not the user's own, the commits
    go through), the Like table holds the same rows as before the first
    toggle, and so does the set of likes of that message. *)
Theorem toggle_like_twice_restores_likes
    (w w1 w2 : World) (csrf1 csrf2 : bool) (ref1 ref2 : string) (message_id : Z)
    (r1 r2 : Response) :
  NoDup (likes (db w)) →
  toggle_like csrf1 ref1 message_id w = (Returned r1, w1) →
  toggle_like csrf2 ref2 message_id w1 = (Returned r2, w2) →
  likes (db w2) ≡ₚ likes (db w)
  ∧ filter (λ l, like_message_id l = message_id) (likes (db w2))
    ≡ₚ filter (λ l, like_message_id l = message_id) (likes (db w)).
Proof.
  intros Hnd H1 H2.
  apply toggle_like_returned in H1 as (user & m & Hg & Hget & Hown & ->).
  apply toggle_like_returned in H2 as (user' & m' & Hg' & _ & _ & ->).
  unfold add_user_to_g, User_query_get in Hg, Hg'.
  cbn [db session users set_likes] in Hg'.
  injection Hg as Hg. injection Hg' as Hg'. rewrite Hg in Hg'. injection Hg' as <-.
  cbn [db likes set_likes].
  set (edge := mkLike (uid user) message_id).
  assert (likes_after :
    (if decide (edge ∈ (if decide (edge ∈ likes (db w))
                        then list_remove_first edge (likes (db w))
                        else likes (db w) ++ [edge]))
     then list_remove_first edge
            (if decide (edge ∈ likes (db w))
             then list_remove_first edge (likes (db w))
             else likes (db w) ++ [edge])
     else (if decide (edge ∈ likes (db w))
           then list_remove_first edge (likes (db w))
           else likes (db w) ++ [edge]) ++ [edge])
    ≡ₚ likes (db w)).
  { destruct (decide (edge ∈ likes (db w))) as [Hin | Hout].
    - rewrite decide_False by (by apply list_remove_first_gone).
      rewrite <- Permutation_cons_append. by apply list_remove_first_perm.
    - rewrite decide_True by (apply elem_of_app; right; by left).
      by rewrite list_remove_first_snoc. }
  split; [exact likes_after | by rewrite likes_after].
Qed.

(** *** The feed: what does hold of [homepage] *)

Lemma homepage_logged_in (w : World) (user : User) :
  add_user_to_g w = (Returned (Some user), w) →
  homepage w
  = (Returned (Render "home.html"
       (take 100
          (filter (λ m, user_id m ∈ (list_to_set (uid <$> following (db w) user) : gset Z))
                  (messages (db w))))), w).
Proof. intros Hg. unfold homepage, bind. by rewrite Hg. Qed.

(** Every message shown is stored and its author is followed by the user. *)
Lemma homepage_only_followed (w w' : World) (user : User) (template : string)
    (msgs : list Message) (m : Message) :
  add_user_to_g w = (Returned (Some user), w) →
  homepage w = (Returned (Render template msgs), w') →
  m ∈ msgs →
  m ∈ messages (db w)
  ∧ mkFollow (user_id m) (uid user) ∈ follows (db w).
Proof.
  intros Hg Hh Hm. rewrite (homepage_logged_in w user Hg) in Hh.
  injection Hh as _ <- _. apply subseteq_take in Hm.
  apply list_elem_of_filter in Hm as [Hauthor Hm]. split; [exact Hm | ].
  apply elem_of_list_to_set, list_elem_of_fmap in Hauthor as (v & Hid & Hv).
  apply list_elem_of_omap in Hv as (f & Hf & Hv).
  case_bool_decide as Hfrom; [ | discriminate].
  apply find_some in Hv as [_ Hto]. apply bool_decide_eq_true in Hto.
  destruct f as [to from]. simpl in *. congruence.
Qed.

(** At most 100 messages are shown. *)
Lemma homepage_at_most_100 (w w' : World) (template : string) (msgs : list Message) :
  homepage w = (Returned (Render template msgs), w') →
  (length msgs ≤ 100)%nat.
Proof.
  unfold homepage, bind. destruct (add_user_to_g_result w) as [[user | ] ->].
  - intros [= _ <- _]. rewrite length_take. lia.
  - intros [= _ <- _]. simpl. lia.
Qed.

(** X22: a user who has no Follow edge to themselves sees none of their own
    messages on the home page. *)
Lemma homepage_without_own_messages (w w' : World) (user : User) (template : string)
    (msgs : list Message) (m : Message) :
  add_user_to_g w = (Returned (Some user), w) →
  mkFollow (uid user) (uid user) ∉ follows (db w) →
  homepage w = (Returned (Render template msgs), w') →
  m ∈ msgs →
  user_id m ≠ uid user.
Proof.
  intros Hg Hself Hh Hm Hown.
  destruct (homepage_only_followed w w' user template msgs m Hg Hh Hm) as [_ Hedge].
  rewrite Hown in Hedge. by apply Hself.
Qed.

(** *** Further helper lemmas *)

Lemma db_eta (d : Db) : mkDb (users d) (messages d) (follows d) (likes d) = d.
Proof. by destruct d. Qed.

Lemma world_eta (w : World) : mkWorld (db w) (session w) (flashes w) = w.
Proof. by destruct w. Qed.

Lemma find_unique_key {A B} `{EqDecision B} (f : A → B) (l : list A) (x : A) :
  NoDup (f <$> l) → x ∈ l → List.find (λ y, bool_decide (f y = f x)) l = Some x.
Proof.
  induction l as [ | y l IH]; intros Hnd Hx; [by apply elem_of_nil in Hx | ].
  rewrite fmap_cons in Hnd. apply NoDup_cons in Hnd as [Hy Hnd]. simpl.
  apply elem_of_cons in Hx as [-> | Hx].
  - by rewrite bool_decide_eq_true_2.
  - rewrite bool_decide_eq_false_2; [by apply IH | ].
    intros Hfy. apply Hy. rewrite Hfy. apply list_elem_of_fmap. eauto.
Qed.

Lemma unique_key_inj {A B} `{EqDecision B} (f : A → B) (l : list A) (x y : A) :
  NoDup (f <$> l) → x ∈ l → y ∈ l → f x = f y → x = y.
Proof.
  intros Hnd Hx Hy Hxy.
  pose proof (find_unique_key f l x Hnd Hx) as Hfx.
  pose proof (find_unique_key f l y Hnd Hy) as Hfy.
  rewrite Hxy in Hfx. congruence.
Qed.

Lemma foldr_max_above (l : list Z) (x : Z) : x ∈ l → (x ≤ foldr Z.max 0 l)%Z.
Proof.
  induction l as [ | y l IH]; intros Hx; [by apply elem_of_nil in Hx | ].
  simpl. apply elem_of_cons in Hx as [-> | Hx]; [lia | ].
  specialize (IH Hx). lia.
Qed.

Lemma next_user_id_above (d : Db) (v : User) : v ∈ users d → (uid v < next_user_id d)%Z.
Proof.
  intros Hv. unfold next_user_id.
  assert (uid v ≤ foldr Z.max 0 (uid <$> users d))%Z; [ | lia].
  apply foldr_max_above, list_elem_of_fmap. eauto.
Qed.

Lemma next_message_id_above (d : Db) (m : Message) :
  m ∈ messages d → (mid m < next_message_id d)%Z.
Proof.
  intros Hm. unfold next_message_id.
  assert (mid m ≤ foldr Z.max 0 (mid <$> messages d))%Z; [ | lia].
  apply foldr_max_above, list_elem_of_fmap. eauto.
Qed.

Lemma list_remove_first_other {A} `{EqDecision A} (x y : A) (l : list A) :
  y ≠ x → y ∈ list_remove_first x l ↔ y ∈ l.
Proof.
  intros Hyx. induction l as [ | z l IH]; simpl; [reflexivity | ].
  destruct (decide (x = z)) as [<- | Hxz].
  - rewrite elem_of_cons. split; [by right | by intros [? | ?]].
  - by rewrite !elem_of_cons, IH.
Qed.

Lemma User_authenticate_found (w w' : World) (name : PyVal) (pwd : string) (u : User) :
  User_authenticate name pwd w = (Returned (Some u), w') →
  w' = w ∧ u ∈ users (db w) ∧ username u = name
  ∧ check_password_hash (password u) pwd = true.
Proof.
  unfold User_authenticate.
  destruct (List.find _ (users (db w))) as [v | ] eqn:Hfind; [ | discriminate].
  destruct (check_password_hash (password v) pwd) eqn:Hcheck; [ | discriminate].
  intros [= <- <-]. apply find_some in Hfind as [Hin Hname].
  apply bool_decide_eq_true in Hname. by apply list_elem_of_In in Hin.
Qed.

Lemma User_authenticate_result (w : World) (name : PyVal) (pwd : string) :
  ∃ auth, User_authenticate name pwd w = (Returned auth, w).
Proof. eexists. reflexivity. Qed.

Lemma User_signup_commit_raised
    (w w' : World) (name mail pwd : string) (img : PyVal) (e : Exn) :
  User_signup_commit name mail pwd img w = (Raised e, w') → w' = w.
Proof.
  unfold User_signup_commit, bind, User_signup, db_session_commit, ret.
  case_bool_decide; [by intros [= _ <-] | ]. simpl.
  destruct (integrity_ok _); [discriminate | by intros [= _ <-]].
Qed.

Lemma signup_unfold (w : World) (form : UserAddForm) :
  signup form w
  = let w0 := mkWorld (db w) (delete CURR_USER_KEY (session w)) (flashes w) in
    if add_valid form then
      match User_signup_commit (add_username form) (add_email form) (add_password form)
              (PStr (str_or (add_image_url form) DEFAULT_IMAGE_URL)) w0 with
      | (Returned user, w1) =>
          (Returned (Redirect "/"),
           mkWorld (db w1) (<[CURR_USER_KEY := uid user]> (session w1)) (flashes w1))
      | (Raised e, w1) =>
          if bool_decide (e = IntegrityError)
          then (Returned (Render "users/signup.html" []),
                mkWorld (db w1) (session w1)
                        (flashes w1 ++ [("Username already taken", "danger")]))
          else (Raised e, w1)
      end
    else (Returned (Render "users/signup.html" []), w0).
Proof.
  unfold signup, bind at 1. rewrite do_logout_spec. cbv zeta.
  destruct (add_valid form); [ | reflexivity].
  unfold bind at 1, try_except, bind at 1.
  destruct (User_signup_commit _ _ _ _ _) as [[user | e] w1]; [reflexivity | ].
  unfold ret. by destruct (bool_decide (e = IntegrityError)).
Qed.

(** *** Sessions: [do_login], [do_logout], [login], [logout], [signup] *)

(** X1: logging a stored user in makes that user the [g.user] of the next
    request; logging out afterwards makes the next request anonymous and
    leaves the session as a logout of the original one would. *)
Theorem login_logout_session_round_trip (w : World) (user : User) :
  User_query_get (db w) (uid user) = Some user →
  add_user_to_g (do_login user w).2 = (Returned (Some user), (do_login user w).2)
  ∧ add_user_to_g (do_logout (do_login user w).2).2
    = (Returned None, (do_logout (do_login user w).2).2)
  ∧ session (do_logout (do_login user w).2).2 = delete CURR_USER_KEY (session w)
  ∧ db (do_logout (do_login user w).2).2 = db w.
Proof.
  intros Hget. rewrite do_logout_spec. unfold do_login, add_user_to_g. simpl.
  rewrite lookup_insert_eq, Hget, lookup_delete_eq, delete_insert_eq. done.
Qed.

(** X2: when the form is valid, the user ids are pairwise distinct and the
    credentials verify, [login] redirects to the home page, leaves the tables
    as they were, and the next request runs as the authenticated user, who
    has the submitted username. *)
Theorem login_then_current_user (w : World) (form : LoginForm) (user : User) :
  login_valid form = true →
  NoDup (uid <$> users (db w)) →
  User_authenticate (PStr (login_username form)) (login_password form) w
  = (Returned (Some user), w) →
  ∃ w', login form w = (Returned (Redirect "/"), w')
    ∧ db w' = db w
    ∧ add_user_to_g w' = (Returned (Some user), w')
    ∧ username user = PStr (login_username form).
Proof.
  intros Hvalid Hids Hauth. unfold login, bind. rewrite Hvalid, Hauth.
  apply User_authenticate_found in Hauth as (_ & Hin & Hname & _).
  eexists. split; [reflexivity | ]. split; [reflexivity | ].
  split; [ | exact Hname].
  unfold add_user_to_g, User_query_get. simpl.
  rewrite lookup_insert_eq. by rewrite (find_unique_key uid).
Qed.

(** X3: [login] never changes the tables, and it changes the session only
    when the form is valid and the credentials verify: the session then
    holds the id of the authenticated user. *)
Theorem login_changes_session_only_on_success (w : World) (form : LoginForm) :
  db (login form w).2 = db w
  ∧ (session (login form w).2 = session w
     ∨ ∃ user, login_valid form = true
         ∧ User_authenticate (PStr (login_username form)) (login_password form) w
           = (Returned (Some user), w)
         ∧ (login form w).1 = Returned (Redirect "/")
         ∧ session (login form w).2 = <[CURR_USER_KEY := uid user]> (session w)).
Proof.
  unfold login, bind. destruct (login_valid form); [ | by split; [ | left]].
  destruct (User_authenticate_result w (PStr (login_username form)) (login_password form))
    as [[user | ] Hauth]; rewrite Hauth.
  - split; [reflexivity | ]. right. exists user. done.
  - split; [reflexivity | by left].
Qed.

(** X4: after a [logout] with a valid form the next request is anonymous;
    a [logout] whose form check fails leaves the session as it was; the
    tables are never changed. *)
Theorem logout_effect (w : World) :
  add_user_to_g (logout true w).2 = (Returned None, (logout true w).2)
  ∧ session (logout false w).2 = session w
  ∧ db (logout true w).2 = db w
  ∧ db (logout false w).2 = db w.
Proof.
  unfold logout, bind. destruct (add_user_to_g_result w) as [g_user Hg]. rewrite Hg.
  destruct g_user as [user | ].
  - rewrite do_logout_spec. unfold add_user_to_g. simpl.
    by rewrite lookup_delete_eq.
  - unfold add_user_to_g in *. simpl. by injection Hg as ->.
Qed.

(** X5: a valid signup with a password, a username and an email that no
    stored user has, on tables whose usernames and emails are pairwise
    distinct and which the store accepts with one more user, stores exactly
    one new user with the submitted name and email and the hash of the
    password, redirects to the home page, and the next request runs as that
    user. *)
Theorem signup_logs_in_new_user (w : World) (form : UserAddForm) :
  add_valid form = true →
  add_password form ≠ "" →
  NoDup (username <$> users (db w)) →
  NoDup (email <$> users (db w)) →
  PStr (add_username form) ∉ username <$> users (db w) →
  PStr (add_email form) ∉ email <$> users (db w) →
  (∀ u, storage_accepts (set_users (db w) (users (db w) ++ [u])) = true) →
  ∃ user w', signup form w = (Returned (Redirect "/"), w')
    ∧ users (db w') = users (db w) ++ [user]
    ∧ username user = PStr (add_username form)
    ∧ email user = PStr (add_email form)
    ∧ password user = generate_password_hash (add_password form)
    ∧ add_user_to_g w' = (Returned (Some user), w').
Proof.
  intros Hvalid Hpwd Hnames Hmails Hname Hmail Hacc.
  set (w0 := mkWorld (db w) (delete CURR_USER_KEY (session w)) (flashes w)).
  destruct (User_signup_commit_fresh w0 (add_username form) (add_email form)
              (add_password form)
              (PStr (str_or (add_image_url form) DEFAULT_IMAGE_URL)))
    as (user & w1 & Hs); try done.
  pose proof Hs as Hshape.
  apply User_signup_commit_returned in Hshape as (_ & Hu & Hw1 & _ & _).
  exists user, (mkWorld (db w1) (<[CURR_USER_KEY := uid user]> (session w1)) (flashes w1)).
  split.
  { rewrite signup_unfold. cbv zeta. fold w0. by rewrite Hvalid, Hs. }
  split; [by rewrite Hw1 | ]. split; [by rewrite Hu | ].
  split; [by rewrite Hu | ]. split; [by rewrite Hu | ].
  unfold add_user_to_g, User_query_get. cbn [session db]. rewrite lookup_insert_eq.
  rewrite Hw1. cbn [db users set_users]. rewrite find_snoc, find_none_iff.
  - by rewrite bool_decide_eq_true_2.
  - intros v Hv. apply bool_decide_eq_false_2.
    apply (next_user_id_above (db w)) in Hv. rewrite Hu. cbn [uid db w0]. lia.
Qed.

(** X6: whatever the form and the outcome, [signup] ends the previous
    login: afterwards the session names nobody, or it names the user that
    this signup has just stored. *)
Theorem signup_ends_previous_login (w : World) (form : UserAddForm) :
  session (signup form w).2 !! CURR_USER_KEY = None
  ∨ ∃ user, (signup form w).1 = Returned (Redirect "/")
      ∧ session (signup form w).2 !! CURR_USER_KEY = Some (uid user)
      ∧ users (db (signup form w).2) = users (db w) ++ [user].
Proof.
  rewrite signup_unfold. cbv zeta.
  set (w0 := mkWorld (db w) (delete CURR_USER_KEY (session w)) (flashes w)).
  destruct (add_valid form); [ | left; apply lookup_delete_eq].
  destruct (User_signup_commit _ _ _ _ w0) as [[user | e] w1] eqn:Hs.
  - right. exists user. apply User_signup_commit_returned in Hs as (_ & _ & -> & _ & _).
    split; [reflexivity | ]. split; [apply lookup_insert_eq | reflexivity].
  - left. apply User_signup_commit_raised in Hs as ->.
    destruct (bool_decide (e = IntegrityError)); apply lookup_delete_eq.
Qed.

(** *** The follow graph: [start_following], [stop_following], [homepage] *)

Lemma User_query_get_uid (d : Db) (i : Z) (u : User) :
  User_query_get d i = Some u → uid u = i ∧ u ∈ users d.
Proof.
  intros Hget. apply find_some in Hget as [Hin Hid].
  apply bool_decide_eq_true in Hid. by apply list_elem_of_In in Hin.
Qed.

Lemma Message_query_get_mid (d : Db) (i : Z) (m : Message) :
  Message_query_get d i = Some m → mid m = i ∧ m ∈ messages d.
Proof.
  intros Hget. apply find_some in Hget as [Hin Hid].
  apply bool_decide_eq_true in Hid. by apply list_elem_of_In in Hin.
Qed.

(** What a follow that returned has done. *)
Lemma start_following_returned
    (w w1 : World) (csrf_ok : bool) (follow_id : Z) (r : Response) :
  start_following csrf_ok follow_id w = (Returned r, w1) →
  ∃ user target,
    add_user_to_g w = (Returned (Some user), w)
    ∧ User_query_get (db w) follow_id = Some target
    ∧ r = Redirect ("/users/" +:+ pretty (uid user) +:+ "/following")
    ∧ w1 = mkWorld (set_follows (db w) (follows (db w) ++ [mkFollow follow_id (uid user)]))
                   (session w) (flashes w).
Proof.
  unfold start_following, bind.
  destruct (add_user_to_g_result w) as [g_user Hg]. rewrite Hg.
  destruct csrf_ok; [ | discriminate]. destruct g_user as [user | ]; [ | discriminate].
  unfold get_db, get_or_404.
  destruct (User_query_get (db w) follow_id) as [target | ] eqn:Hget; [ | discriminate].
  unfold ret, following_append, db_session_commit.
  destruct (User_query_get_uid _ _ _ Hget) as [-> _].
  destruct (integrity_ok _); [ | discriminate].
  intros [= <- <-]. exists user, target. done.
Qed.

(** What an unfollow that returned has done. *)
Lemma stop_following_returned (w w1 : World) (follow_id : Z) (r : Response) (user : User) :
  add_user_to_g w = (Returned (Some user), w) →
  stop_following follow_id w = (Returned r, w1) →
  w1 = mkWorld (set_follows (db w)
                  (list_remove_first (mkFollow follow_id (uid user)) (follows (db w))))
               (session w) (flashes w).
Proof.
  intros Hg. unfold stop_following, bind. rewrite Hg. unfold get_db, get_or_404.
  destruct (User_query_get (db w) follow_id) as [target | ] eqn:Hget; [ | discriminate].
  unfold ret, following_remove, db_session_commit.
  destruct (User_query_get_uid _ _ _ Hget) as [-> _].
  destruct (user_in target (following (db w) user)); [ | discriminate].
  destruct (integrity_ok _); [ | discriminate].
  by intros [= _ <-].
Qed.

(** X7: when a logged-in user follows somebody they did not follow and the
    follow is committed, the unfollow that comes next either restores the
    tables exactly (and keeps the session), or is rejected by the store and
    changes nothing; it does not raise [ValueError] or [NotFound]. *)
Theorem follow_then_unfollow_restores
    (w w1 w2 : World) (follow_id : Z) (r1 : Response) (user : User) (o : Outcome Response) :
  add_user_to_g w = (Returned (Some user), w) →
  mkFollow follow_id (uid user) ∉ follows (db w) →
  start_following true follow_id w = (Returned r1, w1) →
  stop_following follow_id w1 = (o, w2) →
  (o = Returned (Redirect ("/users/" +:+ pretty (uid user) +:+ "/following"))
   ∧ db w2 = db w ∧ session w2 = session w)
  ∨ (o = Raised IntegrityError ∧ w2 = w1).
Proof.
  intros Hg Habsent Hfollow.
  apply start_following_returned in Hfollow as (user' & target & Hg' & Hget & _ & ->).
  rewrite Hg in Hg'. injection Hg' as <-.
  unfold stop_following, bind.
  rewrite (add_user_to_g_frame w _ (Some user)); [ | reflexivity | reflexivity | exact Hg].
  unfold get_db, get_or_404, User_query_get. cbn [db users set_follows].
  fold (User_query_get (db w) follow_id). rewrite Hget.
  unfold ret, following_remove. cbn [db].
  destruct (User_query_get_uid _ _ _ Hget) as [Hid _].
  assert (user_in target
            (following (set_follows (db w)
               (follows (db w) ++ [mkFollow follow_id (uid user)])) user) = true) as ->.
  { apply user_in_following.
    - unfold User_query_get. cbn [users set_follows]. by rewrite Hid.
    - rewrite Hid. cbn [follows set_follows]. apply elem_of_app. right. by left. }
  rewrite Hid. cbn [follows set_follows].
  rewrite list_remove_first_snoc by exact Habsent.
  unfold db_session_commit, set_follows. cbn [users messages follows likes].
  rewrite db_eta. destruct (integrity_ok (db w)); intros [= <- <-].
  - left. done.
  - right. done.
Qed.

(** X8: once a follow has been committed, every stored message of the
    followed user is on the follower's home page, provided the messages
    table has at most 100 rows. *)
Theorem follow_then_feed_shows_messages
    (w w1 : World) (follow_id : Z) (r1 : Response) (m : Message) :
  start_following true follow_id w = (Returned r1, w1) →
  (length (messages (db w)) ≤ 100)%nat →
  m ∈ messages (db w) →
  user_id m = follow_id →
  ∃ msgs, homepage w1 = (Returned (Render "home.html" msgs), w1) ∧ m ∈ msgs.
Proof.
  intros Hfollow Hlen Hm Hauthor.
  apply start_following_returned in Hfollow as (user & target & Hg & Hget & _ & ->).
  set (w1 := mkWorld _ _ _).
  assert (add_user_to_g w1 = (Returned (Some user), w1)) as Hg1
    by (by apply (add_user_to_g_frame w)).
  eexists. split; [by apply homepage_logged_in | ].
  rewrite take_ge.
  2:{ etrans; [apply length_filter | exact Hlen]. }
  apply list_elem_of_filter. split; [ | exact Hm].
  apply elem_of_list_to_set, list_elem_of_fmap.
  destruct (User_query_get_uid _ _ _ Hget) as [Hid _].
  exists target. split; [congruence | ].
  apply list_elem_of_omap. exists (mkFollow follow_id (uid user)). split.
  - cbn [w1 db follows set_follows]. apply elem_of_app. right. by left.
  - cbn [user_following_id user_being_followed_id].
    rewrite bool_decide_eq_true_2 by reflexivity. exact Hget.
Qed.

(** X9: once an unfollow has been committed, the Follow edges being
    pairwise distinct, no message of the unfollowed user is on the home page
    of the user who unfollowed. *)
Theorem unfollow_then_feed_hides_messages
    (w w1 w2 : World) (follow_id : Z) (r : Response) (user : User)
    (template : string) (msgs : list Message) (m : Message) :
  add_user_to_g w = (Returned (Some user), w) →
  NoDup (follows (db w)) →
  stop_following follow_id w = (Returned r, w1) →
  homepage w1 = (Returned (Render template msgs), w2) →
  m ∈ msgs →
  user_id m ≠ follow_id.
Proof.
  intros Hg Hnd Hstop Hhome Hm Hauthor.
  pose proof (stop_following_returned w w1 follow_id r user Hg Hstop) as Hw1.
  assert (add_user_to_g w1 = (Returned (Some user), w1)) as Hg1
    by (rewrite Hw1; by apply (add_user_to_g_frame w)).
  destruct (homepage_only_followed w1 w2 user template msgs m Hg1 Hhome Hm) as [_ Hedge].
  rewrite Hauthor, Hw1 in Hedge. cbn [db follows set_follows] in Hedge.
  by apply list_remove_first_gone in Hedge.
Qed.

(** *** What requests cannot do *)

Ltac step_handler :=
  unfold get_or_404, bind, ret, raise, get_db, flash, following_append,
    following_remove, liked_messages_append, liked_messages_remove,
    messages_append, db_session_commit, User_authenticate;
  cbn [fst snd db session flashes].


(** X10: a request without a logged-in user changes neither the tables nor
    the session, whichever of these handlers it reaches and whatever it
    submits. *)
Theorem anonymous_requests_are_inert
    (csrf_ok : bool) (id now : Z) (referrer : string)
    (mform : MessageForm) (eform : UserEditForm) :
  inert_when_anonymous (start_following csrf_ok id)
  ∧ inert_when_anonymous (stop_following id)
  ∧ inert_when_anonymous (edit_profile eform)
  ∧ inert_when_anonymous (delete_user csrf_ok)
  ∧ inert_when_anonymous (add_message now mform)
  ∧ inert_when_anonymous (show_message id)
  ∧ inert_when_anonymous (delete_message_view csrf_ok id)
  ∧ inert_when_anonymous (toggle_like csrf_ok referrer id)
  ∧ inert_when_anonymous (logout csrf_ok)
  ∧ inert_when_anonymous homepage.
Proof.
  repeat apply conj; intros w Hg.
  - unfold start_following. step_handler. rewrite Hg. by destruct csrf_ok.
  - unfold stop_following. step_handler. by rewrite Hg.
  - unfold edit_profile. step_handler. rewrite Hg. by destruct (edit_valid eform).
  - unfold delete_user. step_handler. by rewrite Hg.
  - unfold add_message. step_handler. by rewrite Hg.
  - unfold show_message. step_handler. by rewrite Hg.
  - unfold delete_message_view. step_handler.
    destruct (Message_query_get (db w) id); [ | done]. cbv beta iota.
    by rewrite Hg.
  - unfold toggle_like. step_handler. rewrite Hg. by destruct csrf_ok.
  - unfold logout. step_handler. rewrite Hg. by destruct csrf_ok.
  - unfold homepage. step_handler. by rewrite Hg.
Qed.

(** X11: a request whose form check fails changes neither the tables nor
    the session in the handlers that check a form, and the two pages that
    only show messages never change them. *)
Theorem failed_form_check_changes_nothing
    (id now : Z) (referrer body name mail image header about pwd : string) :
  changes_nothing (start_following false id)
  ∧ changes_nothing (delete_user false)
  ∧ changes_nothing (delete_message_view false id)
  ∧ changes_nothing (toggle_like false referrer id)
  ∧ changes_nothing (logout false)
  ∧ changes_nothing (add_message now (mkMessageForm false body))
  ∧ changes_nothing (edit_profile (mkUserEditForm false name mail image header about pwd))
  ∧ changes_nothing (show_message id)
  ∧ changes_nothing homepage.
Proof.
  repeat apply conj; intros w; destruct (add_user_to_g_result w) as [g_user Hg].
  - unfold start_following. step_handler. by rewrite Hg.
  - unfold delete_user. step_handler. rewrite Hg. by destruct g_user.
  - unfold delete_message_view. step_handler.
    destruct (Message_query_get (db w) id); [ | done]. cbv beta iota. rewrite Hg.
    destruct g_user; [ | done]. by rewrite andb_false_r.
  - unfold toggle_like. step_handler. by rewrite Hg.
  - unfold logout. step_handler. by rewrite Hg.
  - unfold add_message. step_handler. rewrite Hg. by destruct g_user.
  - unfold edit_profile. step_handler. by rewrite Hg.
  - unfold show_message. step_handler. rewrite Hg. destruct g_user; [ | done].
    by destruct (Message_query_get (db w) id).
  - unfold homepage. step_handler. rewrite Hg. by destruct g_user.
Qed.


(** *** Messages: [add_message], [show_message], [delete_message] *)

(** Either [delete_message] leaves the tables and the session alone, or the
    logged-in author asked with a valid form and the commit went through. *)
Lemma delete_message_view_cases (w : World) (csrf_ok : bool) (message_id : Z) :
  (db (delete_message_view csrf_ok message_id w).2 = db w
   ∧ session (delete_message_view csrf_ok message_id w).2 = session w)
  ∨ ∃ user msg,
      add_user_to_g w = (Returned (Some user), w)
      ∧ csrf_ok = true
      ∧ Message_query_get (db w) message_id = Some msg
      ∧ user_id msg = uid user
      ∧ delete_message_view csrf_ok message_id w
        = (Returned (Redirect ("/users/" +:+ pretty (uid user))),
           mkWorld (delete_message (db w) msg) (session w) (flashes w)).
Proof.
  destruct (add_user_to_g_result w) as [g_user Hg].
  unfold delete_message_view. step_handler.
  destruct (Message_query_get (db w) message_id) as [msg | ] eqn:Hget; [ | by left].
  cbv beta iota. rewrite Hg. destruct g_user as [user | ]; [ | by left].
  destruct (bool_decide (user_id msg = uid user) && csrf_ok) eqn:Hcheck; [ | by left].
  apply andb_true_iff in Hcheck as [Hown ->]. apply bool_decide_eq_true in Hown.
  destruct (integrity_ok (delete_message (db w) msg)); [ | by left].
  right. exists user, msg. done.
Qed.

(** X13: when the message ids are pairwise distinct, a stored message that
    is gone after a [delete_message] request was named by its id in a request
    with a valid form from its own author. *)
Theorem delete_message_view_only_own
    (w : World) (csrf_ok : bool) (message_id : Z) (m : Message) :
  NoDup (mid <$> messages (db w)) →
  m ∈ messages (db w) →
  m ∉ messages (db (delete_message_view csrf_ok message_id w).2) →
  csrf_ok = true ∧ mid m = message_id
  ∧ ∃ user, add_user_to_g w = (Returned (Some user), w) ∧ user_id m = uid user.
Proof.
  intros Hnd Hm Hgone.
  destruct (delete_message_view_cases w csrf_ok message_id)
    as [[Hdb _] | (user & msg & Hg & -> & Hget & Hown & Hrun)].
  - rewrite Hdb in Hgone. done.
  - rewrite Hrun in Hgone. cbn [snd db delete_message set_messages messages] in Hgone.
    destruct (Message_query_get_mid _ _ _ Hget) as [Hid Hmsg].
    assert (mid m = mid msg) as Hsame.
    { destruct (decide (mid m = mid msg)) as [ | Hne]; [done | ].
      exfalso. apply Hgone, list_elem_of_filter. done. }
    assert (m = msg) as -> by (by apply (unique_key_inj mid (messages (db w)))).
    split; [reflexivity | ]. split; [exact Hid | ]. by exists user.
Qed.

(** X14: when a logged-in user posts a message with a valid form and then
    deletes the message with the id it was given, the users, messages and
    follows are exactly those before the post, the likes are those before
    the post without the likes that name the new id, and the session is kept;
    so, when every like names a stored message, the tables are exactly those
    before the post.  Otherwise the store rejects the delete, which then
    changes nothing. *)
Theorem add_then_delete_message_restores
    (w w1 w2 : World) (now : Z) (form : MessageForm) (user : User)
    (r1 : Response) (o : Outcome Response) :
  add_user_to_g w = (Returned (Some user), w) →
  message_valid form = true →
  add_message now form w = (Returned r1, w1) →
  delete_message_view true (next_message_id (db w)) w1 = (o, w2) →
  (o = Returned (Redirect ("/users/" +:+ pretty (uid user)))
   ∧ users (db w2) = users (db w)
   ∧ messages (db w2) = messages (db w)
   ∧ follows (db w2) = follows (db w)
   ∧ likes (db w2)
     = filter (λ l, like_message_id l ≠ next_message_id (db w)) (likes (db w))
   ∧ ((∀ l, l ∈ likes (db w) → ∃ m, m ∈ messages (db w) ∧ mid m = like_message_id l) →
      db w2 = db w)
   ∧ session w2 = session w)
  ∨ (o = Raised IntegrityError ∧ w2 = w1).
Proof.
  intros Hg Hvalid. unfold add_message. step_handler. rewrite Hg, Hvalid.
  set (new := mkMessage (next_message_id (db w)) (message_text form) now (uid user)).
  destruct (integrity_ok _); [ | discriminate]. intros [= _ <-].
  set (w1 := mkWorld _ _ _).
  assert (Message_query_get (db w1) (next_message_id (db w)) = Some new) as Hget.
  { unfold Message_query_get. cbn [w1 db messages set_messages].
    rewrite find_snoc, find_none_iff.
    - cbn [new mid]. by rewrite bool_decide_eq_true_2.
    - intros m Hm. apply bool_decide_eq_false_2.
      apply next_message_id_above in Hm. lia. }
  assert (add_user_to_g w1 = (Returned (Some user), w1)) as Hg1
    by (by apply (add_user_to_g_frame w)).
  unfold delete_message_view. step_handler. rewrite Hget. cbv beta iota.
  rewrite Hg1. cbn [new user_id]. rewrite bool_decide_eq_true_2 by reflexivity.
  cbn [andb]. fold new.
  assert (delete_message (db w1) new
          = mkDb (users (db w)) (messages (db w)) (follows (db w))
                 (filter (λ l, like_message_id l ≠ next_message_id (db w))
                         (likes (db w)))) as ->.
  { unfold delete_message, w1, set_messages. cbn [db messages users follows likes].
    rewrite filter_app.
    rewrite (filter_all _ (messages (db w))).
    2:{ intros x Hx. apply next_message_id_above in Hx. cbn [new mid]. lia. }
    rewrite (filter_none _ [new]).
    2:{ intros x Hx Hne. apply list_elem_of_singleton in Hx. by subst x. }
    by rewrite app_nil_r. }
  destruct (integrity_ok _); intros [= <- <-]; [left | by right].
  cbn [db users messages follows likes session].
  split; [reflexivity | ]. split; [reflexivity | ]. split; [reflexivity | ].
  split; [reflexivity | ]. split; [reflexivity | ]. split; [ | reflexivity].
  intros Hstored. rewrite filter_all; [apply db_eta | ].
  intros l Hl. destruct (Hstored l Hl) as (m & Hm & <-).
  apply next_message_id_above in Hm. lia.
Qed.

(** X15: a like toggle that returned has flipped exactly one edge: the
    users, messages and follows, the session, and every Like edge other than
    the one from the logged-in user to the message are as before, and, the
    Like rows being pairwise distinct, that edge is present afterwards exactly
    when it was absent before. *)
Theorem toggle_like_flips_one_edge
    (w w1 : World) (csrf_ok : bool) (referrer : string) (message_id : Z)
    (r : Response) (user : User) :
  add_user_to_g w = (Returned (Some user), w) →
  NoDup (likes (db w)) →
  toggle_like csrf_ok referrer message_id w = (Returned r, w1) →
  users (db w1) = users (db w)
  ∧ messages (db w1) = messages (db w)
  ∧ follows (db w1) = follows (db w)
  ∧ session w1 = session w
  ∧ (∀ l, l ≠ mkLike (uid user) message_id → l ∈ likes (db w1) ↔ l ∈ likes (db w))
  ∧ (mkLike (uid user) message_id ∈ likes (db w1)
     ↔ mkLike (uid user) message_id ∉ likes (db w)).
Proof.
  intros Hg Hnd Htoggle.
  apply toggle_like_returned in Htoggle as (user' & m & Hg' & _ & _ & ->).
  rewrite Hg in Hg'. injection Hg' as <-.
  cbn [db users messages follows likes session set_likes].
  split; [reflexivity | ]. split; [reflexivity | ]. split; [reflexivity | ].
  split; [reflexivity | ].
  destruct (decide (mkLike (uid user) message_id ∈ likes (db w))) as [Hin | Hout].
  - split.
    + intros l Hl. by apply list_remove_first_other.
    + split; [intros Hgone | done].
      by apply list_remove_first_gone in Hgone.
  - split.
    + intros l Hl. rewrite elem_of_app, list_elem_of_singleton. split; [ | by left].
      by intros [? | ?].
    + split; [done | ]. intros _. apply elem_of_app. right. by left.
Qed.

(** X16: for a logged-in user, whatever [edit_profile] is sent and however
    it ends, the messages, follows, likes and the session are as before, the
    rows of the other users are kept, and a row of the table afterwards is a
    row from before or carries the id, the password and the location of the
    logged-in user. *)
Theorem edit_profile_touches_one_row (w : World) (form : UserEditForm) (user : User) :
  add_user_to_g w = (Returned (Some user), w) →
  messages (db (edit_profile form w).2) = messages (db w)
  ∧ follows (db (edit_profile form w).2) = follows (db w)
  ∧ likes (db (edit_profile form w).2) = likes (db w)
  ∧ session (edit_profile form w).2 = session w
  ∧ (∀ u, u ∈ users (db w) → uid u ≠ uid user → u ∈ users (db (edit_profile form w).2))
  ∧ (∀ u, u ∈ users (db (edit_profile form w).2) →
       u ∈ users (db w)
       ∨ (uid u = uid user ∧ password u = password user ∧ location u = location user)).
Proof.
  intros Hg. unfold edit_profile. step_handler. rewrite Hg.
  destruct (edit_valid form); [ | by repeat split; auto].
  destruct (List.find _ (users (db w))) as [found | ]; [ | by repeat split; auto].
  destruct (check_password_hash (password found) (edit_password form));
    [ | by repeat split; auto].
  destruct (integrity_ok _); [ | by repeat split; auto].
  cbn [snd db flush_user set_users users messages follows likes session].
  split; [reflexivity | ]. split; [reflexivity | ]. split; [reflexivity | ].
  split; [reflexivity | ]. split.
  - intros u Hu Hother. apply list_elem_of_fmap. exists u. split; [ | exact Hu].
    by rewrite bool_decide_eq_false_2.
  - intros u Hu. apply list_elem_of_fmap in Hu as (v & -> & Hv).
    case_bool_decide; [by right | by left].
Qed.

(** *** Account deletion and unknown ids *)

(** What a [delete_user] that returned has done. *)
Lemma delete_user_returned (w w' : World) (user : User) (r : Response) :
  add_user_to_g w = (Returned (Some user), w) →
  delete_user true w = (Returned r, w') →
  w' = mkWorld
         (delete_user_row
            (foldl delete_like
               (foldl delete_message (db w)
                  (filter (λ m, user_id m = uid user) (messages (db w))))
               (filter (λ l, like_user_id l = uid user) (likes (db w))))
            user)
         (delete CURR_USER_KEY (session w)) (flashes w).
Proof.
  intros Hg. unfold delete_user, bind. rewrite Hg, do_logout_spec.
  unfold get_db, db_session_commit, ret. cbn [db session flashes].
  destruct (integrity_ok _); [ | discriminate]. by intros [= _ <-].
Qed.

(** X17: when the message ids are pairwise distinct, a committed
    [delete_user] keeps every message of the other users, every like that
    another user placed on a message that is not the deleted user's, every
    Follow edge between two other users, and every other user. *)
Theorem delete_user_keeps_other_rows (w w' : World) (user : User) (r : Response) :
  add_user_to_g w = (Returned (Some user), w) →
  NoDup (mid <$> messages (db w)) →
  delete_user true w = (Returned r, w') →
  (∀ m, m ∈ messages (db w) → user_id m ≠ uid user → m ∈ messages (db w'))
  ∧ (∀ l m, l ∈ likes (db w) → like_user_id l ≠ uid user →
            Message_query_get (db w) (like_message_id l) = Some m →
            user_id m ≠ uid user →
            l ∈ likes (db w') ∧ m ∈ messages (db w'))
  ∧ (∀ f, f ∈ follows (db w) → user_following_id f ≠ uid user →
          user_being_followed_id f ≠ uid user → f ∈ follows (db w'))
  ∧ (∀ u, u ∈ users (db w) → uid u ≠ uid user → u ∈ users (db w')).
Proof.
  intros Hg Hnd Hdel. rewrite (delete_user_returned w w' user r Hg Hdel).
  set (msgs := filter (λ m, user_id m = uid user) (messages (db w))).
  set (lks := filter (λ l, like_user_id l = uid user) (likes (db w))).
  destruct (foldl_delete_message msgs (db w)) as (Hu1 & Hf1 & Hl1 & Hm1).
  destruct (foldl_delete_like lks (foldl delete_message (db w) msgs))
    as (Hu2 & Hf2 & Hm2 & Hl2).
  unfold delete_user_row. cbn [db messages likes users follows].
  rewrite Hm2, Hu2, Hu1, Hf2, Hf1.
  assert (∀ m x, m ∈ messages (db w) → user_id m ≠ uid user → x ∈ msgs →
                 mid m ≠ mid x) as Hdistinct.
  { intros m x Hm Hother Hx Hsame. apply list_elem_of_filter in Hx as [Hown Hx].
    apply Hother. by rewrite (unique_key_inj mid (messages (db w)) m x). }
  assert (∀ m, m ∈ messages (db w) → user_id m ≠ uid user →
               m ∈ messages (foldl delete_message (db w) msgs)) as Hkept.
  { intros m Hm Hother. apply Hm1. split; [exact Hm | ].
    intros x Hx. by apply Hdistinct. }
  split; [exact Hkept | split; [ | split]].
  - intros l m Hl Hother Hget Hauthor.
    destruct (Message_query_get_mid _ _ _ Hget) as [Hid Hm].
    split; [ | by apply Hkept].
    apply list_elem_of_filter. split; [exact Hother | ].
    apply Hl2. split.
    + apply Hl1. split; [exact Hl | ]. intros x Hx. rewrite <- Hid.
      by apply Hdistinct.
    + intros Hin. by apply list_elem_of_filter in Hin as [Hown _].
  - intros f Hf Hfrom Hto. by apply list_elem_of_filter.
  - intros u Hu Hother. by apply list_elem_of_filter.
Qed.

(** X18: after a committed [delete_user], a request whose session still
    names the deleted user runs as an anonymous one, and no credentials
    authenticate as a user with the deleted id. *)
Theorem deleted_account_is_gone
    (w w' : World) (user : User) (r : Response)
    (stale : gmap string Z) (shown : list (string * string))
    (name : PyVal) (pwd : string) :
  add_user_to_g w = (Returned (Some user), w) →
  delete_user true w = (Returned r, w') →
  stale !! CURR_USER_KEY = Some (uid user) →
  add_user_to_g (mkWorld (db w') stale shown)
  = (Returned None, mkWorld (db w') stale shown)
  ∧ ∀ found, User_authenticate name pwd w' = (Returned (Some found), w') →
             uid found ≠ uid user.
Proof.
  intros Hg Hdel Hstale. rewrite (delete_user_returned w w' user r Hg Hdel).
  unfold delete_user_row. split.
  - unfold add_user_to_g, User_query_get. cbn [db session users set_users].
    rewrite Hstale, find_none_iff; [reflexivity | ].
    intros u Hu. apply list_elem_of_filter in Hu as [Hother _].
    by apply bool_decide_eq_false_2.
  - intros found Hauth. apply User_authenticate_found in Hauth as (_ & Hin & _).
    cbn [db users set_users] in Hin. by apply list_elem_of_filter in Hin as [Hother _].
Qed.

(** X19: for a logged-in user, an id that no user has makes
    [start_following] and [stop_following] raise [NotFound], and an id that
    no message has makes [show_message], [delete_message] and [toggle_like]
    raise [NotFound]; the world is left as it was.  The two ids are
    independent: what the one names among the messages, or the other among
    the users, plays no role. *)
Theorem unknown_ids_are_not_found
    (w : World) (user : User) (follow_id message_id : Z)
    (referrer : string) (csrf_ok : bool) :
  add_user_to_g w = (Returned (Some user), w) →
  User_query_get (db w) follow_id = None →
  Message_query_get (db w) message_id = None →
  start_following true follow_id w = (Raised NotFound, w)
  ∧ stop_following follow_id w = (Raised NotFound, w)
  ∧ show_message message_id w = (Raised NotFound, w)
  ∧ delete_message_view csrf_ok message_id w = (Raised NotFound, w)
  ∧ toggle_like true referrer message_id w = (Raised NotFound, w).
Proof.
  intros Hg Huser Hmessage.
  unfold start_following, stop_following, show_message, delete_message_view, toggle_like.
  step_handler. by rewrite Hg, Huser, Hmessage.
Qed.

(** X20: [delete_message] looks the message up before it looks at the
    request: an id that no message has is answered with [NotFound] also to a
    request without a logged-in user, whereas [show_message] and
    [toggle_like] answer such a request with the unauthorized response. *)
Theorem unknown_message_id_checked_before_login
    (w : World) (id : Z) (referrer : string) (csrf_ok : bool) :
  add_user_to_g w = (Returned None, w) →
  Message_query_get (db w) id = None →
  delete_message_view csrf_ok id w = (Raised NotFound, w)
  ∧ show_message id w
    = (Returned (Redirect "/"),
       mkWorld (db w) (session w) (flashes w ++ [("Access unauthorized.", "danger")]))
  ∧ toggle_like csrf_ok referrer id w = (Raised Unauthorized, w).
Proof.
  intros Hg Hmessage.
  unfold show_message, delete_message_view, toggle_like.
  step_handler. rewrite Hg, Hmessage. by destruct csrf_ok.
Qed.

(** X21: the home page of a logged-in user renders [home.html] and leaves
    the world as it was; the messages it shows are stored messages in their
    storage order, at most 100 of them, each written by somebody the user
    has a Follow edge to. *)
Theorem homepage_feed_sound
    (w w' : World) (user : User) (template : string) (msgs : list Message) :
  add_user_to_g w = (Returned (Some user), w) →
  homepage w = (Returned (Render template msgs), w') →
  template = "home.html"
  ∧ w' = w
  ∧ msgs `sublist_of` messages (db w)
  ∧ (length msgs ≤ 100)%nat
  ∧ ∀ m, m ∈ msgs → mkFollow (user_id m) (uid user) ∈ follows (db w).
Proof.
  intros Hg Hhome. pose proof Hhome as Hshape.
  rewrite (homepage_logged_in w user Hg) in Hshape. injection Hshape as <- Hmsgs <-.
  split; [reflexivity | ]. split; [reflexivity | ]. split; [ | split].
  - rewrite <- Hmsgs. etrans; [apply sublist_take | apply sublist_filter].
  - rewrite <- Hmsgs, length_take. lia.
  - intros m Hm. by destruct (homepage_only_followed w w user "home.html" msgs m Hg Hhome Hm).
Qed.

End Warbler.

(** ** The handlers run on concrete stores *)

(** C1: u1 is logged in and has posted [own_message], yet the feed of u1 is
    empty: a message whose author is the user is not a candidate unless the
    user follows themselves. *)
Theorem homepage_omits_own_messages :
  add_user_to_g world_own_message = (Returned (Some u1), world_own_message)
  ∧ own_message ∈ messages (db world_own_message)
  ∧ user_id own_message = uid u1
  ∧ homepage world_own_message = (Returned (Render "home.html" []), world_own_message).
Proof.
  split; [reflexivity | ]. split; [by left | ]. split; reflexivity.
Qed.

(** C2: the feed keeps storage order and cuts after the first 100 rows.  Of
    two messages of a followed user the older comes first; of 150 messages of
    a followed user the 100 oldest are shown; of 150 messages of the user's
    own none is shown. *)
Theorem homepage_keeps_storage_order :
  homepage world_two_messages
  = (Returned (Render "home.html" [older_message; newer_message]), world_two_messages)
  ∧ created_at older_message < created_at newer_message
  ∧ (∃ msgs,
       homepage world_150_followed = (Returned (Render "home.html" msgs), world_150_followed)
       ∧ length msgs = 100%nat
       ∧ created_at <$> msgs = seqZ 1 100)
  ∧ homepage world_150_own = (Returned (Render "home.html" []), world_150_own).
Proof.
  split; [reflexivity | ]. split; [reflexivity | ]. split.
  - eexists. split; [vm_compute; reflexivity | ]. split; reflexivity.
  - vm_compute. reflexivity.
Qed.

(** C3, counterexample: the store rejects the commit of [delete_user]; no row
    is removed, but the session has lost its user. *)
Lemma delete_user_rejected_session_changed :
  delete_user reject_all true world_account
  = (Raised IntegrityError, world_account_logged_out)
  ∧ db world_account_logged_out = db world_account
  ∧ session world_account !! CURR_USER_KEY = Some 1
  ∧ session world_account_logged_out ≠ session world_account.
Proof.
  split; [vm_compute; reflexivity | ]. split; [reflexivity | ].
  split; [reflexivity | ].
  intros Heq. apply (f_equal (λ s, s !! CURR_USER_KEY)) in Heq.
  vm_compute in Heq. discriminate.
Qed.

Lemma delete_user_witness :
  add_user_to_g world_mutual = (Returned (Some u1), world_mutual)
  ∧ delete_user accept_all true world_mutual
    = (Returned (Redirect "/signup"), world_account_deleted)
  ∧ delete_user reject_all true world_mutual
    = (Raised IntegrityError, mkWorld (db world_mutual) ∅ []).
Proof.
  assert (add_user_to_g world_mutual = (Returned (Some u1), world_mutual)) as Hg
    by reflexivity.
  split; [exact Hg | ]. split.
  - pose proof (delete_user_logs_out_then_commits accept_all world_mutual u1 Hg) as Hrun.
    cbv zeta in Hrun. destruct Hrun as [_ ->]. vm_compute. reflexivity.
  - pose proof (delete_user_logs_out_then_commits reject_all world_mutual u1 Hg) as Hrun.
    cbv zeta in Hrun. destruct Hrun as [_ ->]. vm_compute. reflexivity.
Defined.

Example delete_user_accepted :
  delete_user accept_all true world_account
  = (Returned (Redirect "/signup"), world_account_deleted).
Proof. vm_compute. reflexivity. Qed.

(** C4, counterexample: u1 follows u2; the first unfollow removes the edge,
    the repeated unfollow raises [ValueError]. *)
Lemma stop_following_twice_raises :
  stop_following accept_all 2 world_two_messages
  = (Returned (Redirect "/users/1/following"), world_unfollowed)
  ∧ stop_following accept_all 2 world_unfollowed = (Raised ValueError, world_unfollowed).
Proof. split; vm_compute; reflexivity. Qed.

Lemma stop_following_witness :
  add_user_to_g world_two_messages = (Returned (Some u1), world_two_messages)
  ∧ User_query_get (db world_two_messages) (uid u2) = Some u2
  ∧ NoDup (follows (db world_two_messages))
  ∧ (mkFollow (uid u2) (uid u1) ∉ follows (db world_unfollowed))
  ∧ stop_following accept_all (uid u2) world_unfollowed
    = (Raised ValueError, world_unfollowed).
Proof.
  split; [reflexivity | ]. split; [reflexivity | ].
  split; [apply NoDup_singleton | ].
  destruct (stop_following_absent_edge_raises accept_all world_two_messages u1 u2)
    as [_ Hrepeat]; [reflexivity | reflexivity | ].
  apply (Hrepeat (NoDup_singleton _) (Redirect "/users/1/following")).
  vm_compute. reflexivity.
Defined.

(** C5, counterexample: one submission repeats only a username, the other
    only an email; the commit raises the same [IntegrityError] for both and
    the handler answers both with the same response, flash and world. *)
Lemma signup_duplicate_email_indistinguishable :
  PStr (add_username form_duplicate_username) ∈ username <$> users (db world_account)
  ∧ (PStr (add_email form_duplicate_username) ∉ email <$> users (db world_account))
  ∧ (PStr (add_username form_duplicate_email) ∉ username <$> users (db world_account))
  ∧ PStr (add_email form_duplicate_email) ∈ email <$> users (db world_account)
  ∧ User_signup_commit toy_hash default_image default_header accept_all
      "u1" "fresh@email.com" "password" (PStr default_image) world_account
    = (Raised IntegrityError, world_account)
  ∧ User_signup_commit toy_hash default_image default_header accept_all
      "fresh" "u1@email.com" "password" (PStr default_image) world_account
    = (Raised IntegrityError, world_account)
  ∧ signup toy_hash default_image default_header accept_all
      form_duplicate_username world_account
    = signup toy_hash default_image default_header accept_all
        form_duplicate_email world_account
  ∧ flashes (signup toy_hash default_image default_header accept_all
               form_duplicate_email world_account).2
    = [("Username already taken", "danger")].
Proof.
  split; [compute_done | ]. split; [compute_done | ].
  split; [compute_done | ]. split; [compute_done | ].
  split; [vm_compute; reflexivity | ]. split; [vm_compute; reflexivity | ].
  split; vm_compute; reflexivity.
Qed.

Lemma signup_duplicate_witness :
  add_valid form_duplicate_email = true
  ∧ add_password form_duplicate_email ≠ ""
  ∧ signup toy_hash default_image default_header accept_all
      form_duplicate_email world_account
    = (Returned (Render "users/signup.html" []),
       mkWorld (db world_account) (delete CURR_USER_KEY (session world_account))
               (flashes world_account ++ [("Username already taken", "danger")])).
Proof.
  split; [reflexivity | ]. split; [discriminate | ].
  apply (signup_duplicate_generic_failure toy_hash default_image default_header
           accept_all world_account form_duplicate_email);
    [reflexivity | discriminate | right; compute_done].
Defined.

Lemma toggle_like_own_message_witness :
  add_user_to_g world_account = (Returned (Some u1), world_account)
  ∧ mkLike 1 1 ∈ likes (db world_account)
  ∧ toggle_like accept_all true "/" 1 world_account = (Raised Unauthorized, world_account)
  ∧ toggle_like accept_all false "/" 1 world_account = (Raised Unauthorized, world_account).
Proof.
  split; [reflexivity | ]. split; [by left | ]. split.
  - apply (toggle_like_own_message_unauthorized accept_all world_account true "/"
             u1 (mkMessage 1 "m1_text" 10 1)); reflexivity.
  - apply (toggle_like_own_message_unauthorized accept_all world_account false "/"
             u1 (mkMessage 1 "m1_text" 10 1)); reflexivity.
Defined.

Lemma toggle_like_twice_witness :
  NoDup (likes (db world_liked_both))
  ∧ toggle_like accept_all true "/" 1 world_liked_both
    = (Returned (Redirect "/"), world_liked_newer)
  ∧ toggle_like accept_all true "/" 1 world_liked_newer
    = (Returned (Redirect "/"), world_liked_again)
  ∧ likes (db world_liked_again) ≡ₚ likes (db world_liked_both)
  ∧ filter (λ l, like_message_id l = 1) (likes (db world_liked_again))
    ≡ₚ filter (λ l, like_message_id l = 1) (likes (db world_liked_both)).
Proof.
  assert (NoDup (likes (db world_liked_both))) as Hdistinct
    by (apply (bool_decide_unpack _); vm_compute; exact I).
  split; [exact Hdistinct | ].
  split; [vm_compute; reflexivity | ]. split; [vm_compute; reflexivity | ].
  apply (toggle_like_twice_restores_likes accept_all world_liked_both world_liked_newer
           world_liked_again true true "/" "/" 1 (Redirect "/") (Redirect "/"));
    [exact Hdistinct | vm_compute; reflexivity | vm_compute; reflexivity].
Defined.

Lemma signup_then_authenticate_witness :
  toy_check (toy_hash "password") "password" = true
  ∧ User_signup_commit toy_hash default_image default_header accept_all
      "u3" "u3@email.com" "password" PNone world_empty
    = (Returned (sample_user 1 "u3"), world_u3)
  ∧ User_authenticate toy_check (PStr "u3") "password" world_u3
    = (Returned (Some (sample_user 1 "u3")), world_u3)
  ∧ User_authenticate toy_check (PStr "u3") "password1" world_u3
    = (Returned None, world_u3)
  ∧ User_authenticate toy_check (PStr "asdfgasdgasgd") "asdgfsadgf" world_u3
    = (Returned None, world_u3).
Proof.
  split; [reflexivity | ]. split; [vm_compute; reflexivity | ].
  destruct (signup_then_authenticate toy_hash toy_check default_image default_header
              accept_all world_empty world_u3 "u3" "u3@email.com" "password" PNone
              (sample_user 1 "u3"))
    as (_ & Hright & Hwrong & Hany); [reflexivity | vm_compute; reflexivity | ].
  split; [exact Hright | ]. split; [apply Hwrong; reflexivity | ].
  apply Hany. intros v Hv Hname. apply list_elem_of_singleton in Hv. subst v.
  discriminate.
Defined.

Lemma second_signup_witness :
  "password" ≠ ""
  ∧ User_signup_commit toy_hash default_image default_header accept_all
      "u3" "u3@email.com" "password" PNone world_empty
    = (Returned (sample_user 1 "u3"), world_u3)
  ∧ User_signup_commit toy_hash default_image default_header accept_all
      "u3" "other@email.com" "password" PNone world_u3
    = (Raised IntegrityError, world_u3)
  ∧ length (filter (λ u, username u = PStr "u3") (users (db world_u3))) = 1%nat.
Proof.
  split; [discriminate | ]. split; [vm_compute; reflexivity | ].
  apply (second_signup_same_username_fails toy_hash default_image default_header
           accept_all world_empty world_u3 "u3" "u3@email.com" "password"
           "other@email.com" "password" PNone PNone (sample_user 1 "u3"));
    [discriminate | vm_compute; reflexivity].
Defined.


(** ** Instances of the further properties *)

Lemma login_logout_session_round_trip_witness :
  User_query_get (db world_account) (uid u2) = Some u2
  ∧ add_user_to_g (do_login u2 world_account).2
    = (Returned (Some u2), (do_login u2 world_account).2)
  ∧ add_user_to_g (do_logout (do_login u2 world_account).2).2
    = (Returned None, (do_logout (do_login u2 world_account).2).2)
  ∧ session (do_logout (do_login u2 world_account).2).2
    = delete CURR_USER_KEY (session world_account)
  ∧ db (do_logout (do_login u2 world_account).2).2 = db world_account.
Proof.
  split; [reflexivity | ].
  apply (login_logout_session_round_trip world_account u2). reflexivity.
Defined.

Lemma login_then_current_user_witness :
  login_valid form_login_u2 = true
  ∧ NoDup (uid <$> users (db world_account))
  ∧ User_authenticate toy_check (PStr "u2") "password" world_account
    = (Returned (Some u2), world_account)
  ∧ ∃ w', login toy_check sample_str form_login_u2 world_account
          = (Returned (Redirect "/"), w')
      ∧ db w' = db world_account
      ∧ add_user_to_g w' = (Returned (Some u2), w')
      ∧ username u2 = PStr (login_username form_login_u2).
Proof.
  assert (NoDup (uid <$> users (db world_account))) as Hids
    by (apply (bool_decide_unpack _); vm_compute; exact I).
  split; [reflexivity | ]. split; [exact Hids | ]. split; [reflexivity | ].
  apply (login_then_current_user toy_check sample_str world_account form_login_u2 u2);
    [reflexivity | exact Hids | reflexivity].
Defined.

Lemma signup_logs_in_new_user_witness :
  add_valid form_signup_u3 = true
  ∧ add_password form_signup_u3 ≠ ""
  ∧ ∃ user w', signup toy_hash default_image default_header accept_all
                 form_signup_u3 world_account
               = (Returned (Redirect "/"), w')
      ∧ users (db w') = users (db world_account) ++ [user]
      ∧ username user = PStr "u3"
      ∧ email user = PStr "u3@email.com"
      ∧ password user = toy_hash "password"
      ∧ add_user_to_g w' = (Returned (Some user), w').
Proof.
  split; [reflexivity | ]. split; [discriminate | ].
  apply (signup_logs_in_new_user toy_hash default_image default_header accept_all
           world_account form_signup_u3);
    [ reflexivity | discriminate
    | apply (bool_decide_unpack _); vm_compute; exact I
    | apply (bool_decide_unpack _); vm_compute; exact I
    | apply (bool_decide_unpack _); vm_compute; exact I
    | apply (bool_decide_unpack _); vm_compute; exact I
    | reflexivity ].
Defined.

Lemma follow_then_unfollow_restores_witness :
  add_user_to_g world_unfollowed = (Returned (Some u1), world_unfollowed)
  ∧ (mkFollow 2 (uid u1) ∉ follows (db world_unfollowed))
  ∧ start_following accept_all true 2 world_unfollowed
    = (Returned (Redirect "/users/1/following"), world_two_messages)
  ∧ stop_following accept_all 2 world_two_messages
    = (Returned (Redirect "/users/1/following"), world_unfollowed)
  ∧ ((Returned (Redirect "/users/1/following")
      = Returned (Redirect ("/users/" +:+ pretty (uid u1) +:+ "/following"))
      ∧ db world_unfollowed = db world_unfollowed
      ∧ session world_unfollowed = session world_unfollowed)
     ∨ (Returned (Redirect "/users/1/following") = Raised IntegrityError
        ∧ world_unfollowed = world_two_messages)).
Proof.
  split; [reflexivity | ]. split; [apply not_elem_of_nil | ].
  split; [vm_compute; reflexivity | ]. split; [vm_compute; reflexivity | ].
  apply (follow_then_unfollow_restores accept_all world_unfollowed world_two_messages
           world_unfollowed 2 (Redirect "/users/1/following") u1
           (Returned (Redirect "/users/1/following")));
    [ reflexivity | apply not_elem_of_nil
    | vm_compute; reflexivity | vm_compute; reflexivity ].
Defined.

Lemma follow_then_feed_shows_messages_witness :
  start_following accept_all true 2 world_unfollowed
  = (Returned (Redirect "/users/1/following"), world_two_messages)
  ∧ (length (messages (db world_unfollowed)) ≤ 100)%nat
  ∧ older_message ∈ messages (db world_unfollowed)
  ∧ ∃ msgs, homepage world_two_messages
            = (Returned (Render "home.html" msgs), world_two_messages)
      ∧ older_message ∈ msgs.
Proof.
  split; [vm_compute; reflexivity | ]. split; [vm_compute; lia | ].
  split; [by left | ].
  apply (follow_then_feed_shows_messages accept_all world_unfollowed world_two_messages
           2 (Redirect "/users/1/following") older_message);
    [vm_compute; reflexivity | vm_compute; lia | by left | reflexivity].
Defined.

Lemma unfollow_then_feed_hides_messages_witness :
  add_user_to_g world_self_follow = (Returned (Some u1), world_self_follow)
  ∧ NoDup (follows (db world_self_follow))
  ∧ stop_following accept_all 2 world_self_follow
    = (Returned (Redirect "/users/1/following"), world_self_follow_only)
  ∧ homepage world_self_follow_only
    = (Returned (Render "home.html" [own_message]), world_self_follow_only)
  ∧ user_id own_message ≠ 2.
Proof.
  assert (NoDup (follows (db world_self_follow))) as Hdistinct
    by (apply (bool_decide_unpack _); vm_compute; exact I).
  split; [reflexivity | ]. split; [exact Hdistinct | ].
  split; [vm_compute; reflexivity | ]. split; [vm_compute; reflexivity | ].
  apply (unfollow_then_feed_hides_messages accept_all world_self_follow
           world_self_follow_only world_self_follow_only 2
           (Redirect "/users/1/following") u1 "home.html" [own_message] own_message);
    [ reflexivity | exact Hdistinct | vm_compute; reflexivity
    | vm_compute; reflexivity | by left ].
Defined.

Lemma delete_message_view_only_own_witness :
  NoDup (mid <$> messages (db world_account))
  ∧ mkMessage 1 "m1_text" 10 1 ∈ messages (db world_account)
  ∧ delete_message_view accept_all true 1 world_account
    = (Returned (Redirect "/users/1"), world_account_first_deleted)
  ∧ mid (mkMessage 1 "m1_text" 10 1) = 1
  ∧ ∃ user, add_user_to_g world_account = (Returned (Some user), world_account)
      ∧ user_id (mkMessage 1 "m1_text" 10 1) = uid user.
Proof.
  assert (NoDup (mid <$> messages (db world_account))) as Hids
    by (apply (bool_decide_unpack _); vm_compute; exact I).
  assert (delete_message_view accept_all true 1 world_account
          = (Returned (Redirect "/users/1"), world_account_first_deleted)) as Hrun
    by (vm_compute; reflexivity).
  split; [exact Hids | ]. split; [by left | ]. split; [exact Hrun | ].
  apply (delete_message_view_only_own accept_all world_account true 1
           (mkMessage 1 "m1_text" 10 1)); [exact Hids | by left | ].
  rewrite Hrun. intros Hin. apply list_elem_of_singleton in Hin. discriminate.
Defined.

Lemma add_then_delete_message_restores_witness :
  add_user_to_g world_account = (Returned (Some u1), world_account)
  ∧ message_valid form_post = true
  ∧ add_message accept_all 30 form_post world_account
    = (Returned (Redirect "/users/1"), world_account_posted)
  ∧ delete_message_view accept_all true 3 world_account_posted
    = (Returned (Redirect "/users/1"), world_account)
  ∧ ((Returned (Redirect "/users/1") = Returned (Redirect ("/users/" +:+ pretty (uid u1)))
      ∧ users (db world_account) = users (db world_account)
      ∧ messages (db world_account) = messages (db world_account)
      ∧ follows (db world_account) = follows (db world_account)
      ∧ likes (db world_account)
        = filter (λ l, like_message_id l ≠ next_message_id (db world_account))
                 (likes (db world_account))
      ∧ ((∀ l, l ∈ likes (db world_account) →
               ∃ m, m ∈ messages (db world_account) ∧ mid m = like_message_id l) →
         db world_account = db world_account)
      ∧ session world_account = session world_account)
     ∨ (Returned (Redirect "/users/1") = Raised IntegrityError
        ∧ world_account = world_account_posted)).
Proof.
  split; [reflexivity | ]. split; [reflexivity | ].
  split; [vm_compute; reflexivity | ]. split; [vm_compute; reflexivity | ].
  apply (add_then_delete_message_restores accept_all world_account world_account_posted
           world_account 30 form_post u1 (Redirect "/users/1")
           (Returned (Redirect "/users/1")));
    [reflexivity | reflexivity | vm_compute; reflexivity | vm_compute; reflexivity].
Defined.

Lemma toggle_like_flips_one_edge_witness :
  add_user_to_g world_liked_both = (Returned (Some u1), world_liked_both)
  ∧ NoDup (likes (db world_liked_both))
  ∧ toggle_like accept_all true "/" 1 world_liked_both
    = (Returned (Redirect "/"), world_liked_newer)
  ∧ (mkLike (uid u1) 1 ∈ likes (db world_liked_newer)
     ↔ mkLike (uid u1) 1 ∉ likes (db world_liked_both)).
Proof.
  assert (NoDup (likes (db world_liked_both))) as Hdistinct
    by (apply (bool_decide_unpack _); vm_compute; exact I).
  split; [reflexivity | ]. split; [exact Hdistinct | ].
  split; [vm_compute; reflexivity | ].
  apply (toggle_like_flips_one_edge accept_all world_liked_both world_liked_newer
           true "/" 1 (Redirect "/") u1);
    [reflexivity | exact Hdistinct | vm_compute; reflexivity].
Defined.

Lemma edit_profile_touches_one_row_witness :
  add_user_to_g world_account = (Returned (Some u1), world_account)
  ∧ messages (db (edit_profile toy_check accept_all form_edit_u1 world_account).2)
    = messages (db world_account)
  ∧ u2 ∈ users (db (edit_profile toy_check accept_all form_edit_u1 world_account).2).
Proof.
  split; [reflexivity | ].
  destruct (edit_profile_touches_one_row toy_check accept_all world_account
              form_edit_u1 u1) as (Hmessages & _ & _ & _ & Hothers & _);
    [reflexivity | ].
  split; [exact Hmessages | ].
  apply Hothers; [right; by left | discriminate].
Defined.

Lemma delete_user_keeps_other_rows_witness :
  add_user_to_g world_account = (Returned (Some u1), world_account)
  ∧ NoDup (mid <$> messages (db world_account))
  ∧ delete_user accept_all true world_account
    = (Returned (Redirect "/signup"), world_account_deleted)
  ∧ mkMessage 2 "m2_text" 20 2 ∈ messages (db world_account_deleted)
  ∧ u2 ∈ users (db world_account_deleted).
Proof.
  assert (NoDup (mid <$> messages (db world_account))) as Hids
    by (apply (bool_decide_unpack _); vm_compute; exact I).
  split; [reflexivity | ]. split; [exact Hids | ].
  split; [vm_compute; reflexivity | ].
  destruct (delete_user_keeps_other_rows accept_all world_account world_account_deleted
              u1 (Redirect "/signup")) as (Hmessages & _ & _ & Husers);
    [reflexivity | exact Hids | vm_compute; reflexivity | ].
  split.
  - apply Hmessages; [right; by left | discriminate].
  - apply Husers; [right; by left | discriminate].
Defined.

Lemma deleted_account_is_gone_witness :
  add_user_to_g world_account = (Returned (Some u1), world_account)
  ∧ delete_user accept_all true world_account
    = (Returned (Redirect "/signup"), world_account_deleted)
  ∧ logged_in 1 !! CURR_USER_KEY = Some (uid u1)
  ∧ add_user_to_g (mkWorld (db world_account_deleted) (logged_in 1) [])
    = (Returned None, mkWorld (db world_account_deleted) (logged_in 1) []).
Proof.
  split; [reflexivity | ]. split; [vm_compute; reflexivity | ].
  split; [reflexivity | ].
  apply (deleted_account_is_gone toy_check accept_all world_account world_account_deleted
           u1 (Redirect "/signup") (logged_in 1) [] (PStr "u1") "password");
    [reflexivity | vm_compute; reflexivity | reflexivity].
Defined.

Lemma unknown_ids_are_not_found_witness :
  add_user_to_g world_account_posted = (Returned (Some u1), world_account_posted)
  ∧ User_query_get (db world_account_posted) 3 = None
  ∧ Message_query_get (db world_account_posted) 3
    = Some (mkMessage 3 "hello" 30 1)
  ∧ Message_query_get (db world_account_posted) 99 = None
  ∧ start_following accept_all true 3 world_account_posted
    = (Raised NotFound, world_account_posted)
  ∧ stop_following accept_all 3 world_account_posted
    = (Raised NotFound, world_account_posted)
  ∧ show_message 99 world_account_posted = (Raised NotFound, world_account_posted)
  ∧ delete_message_view accept_all true 99 world_account_posted
    = (Raised NotFound, world_account_posted)
  ∧ toggle_like accept_all true "/" 99 world_account_posted
    = (Raised NotFound, world_account_posted).
Proof.
  split; [reflexivity | ]. split; [reflexivity | ]. split; [reflexivity | ].
  split; [reflexivity | ].
  apply (unknown_ids_are_not_found accept_all world_account_posted u1 3 99 "/" true);
    reflexivity.
Defined.

Lemma unknown_message_id_checked_before_login_witness :
  add_user_to_g world_u3 = (Returned None, world_u3)
  ∧ Message_query_get (db world_u3) 99 = None
  ∧ delete_message_view accept_all false 99 world_u3 = (Raised NotFound, world_u3)
  ∧ show_message 99 world_u3
    = (Returned (Redirect "/"),
       mkWorld (db world_u3) (session world_u3)
               (flashes world_u3 ++ [("Access unauthorized.", "danger")]))
  ∧ toggle_like accept_all false "/" 99 world_u3 = (Raised Unauthorized, world_u3).
Proof.
  split; [reflexivity | ]. split; [reflexivity | ].
  apply (unknown_message_id_checked_before_login accept_all world_u3 99 "/" false);
    reflexivity.
Defined.

Lemma homepage_feed_sound_witness :
  add_user_to_g world_two_messages = (Returned (Some u1), world_two_messages)
  ∧ homepage world_two_messages
    = (Returned (Render "home.html" [older_message; newer_message]), world_two_messages)
  ∧ [older_message; newer_message] `sublist_of` messages (db world_two_messages)
  ∧ (length [older_message; newer_message] ≤ 100)%nat.
Proof.
  split; [reflexivity | ]. split; [reflexivity | ].
  destruct (homepage_feed_sound world_two_messages world_two_messages u1 "home.html"
              [older_message; newer_message])
    as (_ & _ & Hsub & Hlen & _); [reflexivity | reflexivity | ].
  split; [exact Hsub | exact Hlen].
Defined.

Lemma homepage_without_own_messages_witness :
  add_user_to_g world_two_messages = (Returned (Some u1), world_two_messages)
  ∧ (mkFollow (uid u1) (uid u1) ∉ follows (db world_two_messages))
  ∧ homepage world_two_messages
    = (Returned (Render "home.html" [older_message; newer_message]), world_two_messages)
  ∧ user_id older_message ≠ uid u1.
Proof.
  assert (mkFollow (uid u1) (uid u1) ∉ follows (db world_two_messages)) as Hself.
  { intros Hin. apply list_elem_of_singleton in Hin. discriminate. }
  split; [reflexivity | ]. split; [exact Hself | ]. split; [reflexivity | ].
  apply (homepage_without_own_messages world_two_messages world_two_messages u1
           "home.html" [older_message; newer_message] older_message);
    [reflexivity | exact Hself | reflexivity | by left].
Defined.
